(** * Task Manager API: the request-to-storage mapping layer

    A shallow embedding of [app/models.py], [app/crud.py] and the request
    handlers of [app/main.py], over a model of the one-table datastore.

    - Payload validation ([TaskBase], [TaskCreate], [TaskUpdate], [Task]) is a
      set of total functions returning [option].
    - The repository functions of [crud.py] run in a state-and-exception
      monad over the datastore: a raised exception keeps the state reached
      so far (the pool is opened with [autocommit], nothing is rolled back).
    - The handlers of [main.py] map repository results to responses. *)

From Stdlib Require Import ZArith List Ascii String Bool Lia.
From Stdlib Require Import Permutation Sorted Orders Mergesort.
Import ListNotations.

Local Open Scope string_scope.
Local Open Scope list_scope.
Local Open Scope Z_scope.

(* ===================================================================== *)
(** ** models.py *)
(* ===================================================================== *)

(** A calendar date and a timestamp, each as a point on an integer line. *)
Definition date := Z.
Definition datetime := Z.

(** [TaskStatus = Literal['pending', 'in_progress', 'completed']] *)
Definition TaskStatus : list string := ["pending"; "in_progress"; "completed"].

Definition is_TaskStatus (s : string) : bool :=
  existsb (String.eqb s) TaskStatus.

(** One field of a request body: not mentioned, mentioned as [null], or
    mentioned with a value. A character of a Python [str] is one character
    of the string here, so [String.length] is Python's [len]. *)
Inductive Field (A : Type) : Type :=
| Unset : Field A
| Null : Field A
| Val (a : A) : Field A.
Arguments Unset {A}.
Arguments Null {A}.
Arguments Val {A} a.

(** The request body of POST and PUT before validation. *)
Record Payload : Type := mkPayload {
  p_title : Field string;
  p_description : Field string;
  p_status : Field string;
  p_due_date : Field date
}.

(** [Field(..., min_length=1, max_length=255)] on a [str]. *)
Definition title_length_ok (s : string) : bool :=
  (1 <=? Z.of_nat (String.length s)) && (Z.of_nat (String.length s) <=? 255).

(** [TaskBase] / [TaskCreate]: [title] is required, [status] defaults to
    ['pending'], the two others default to [None]. *)
Record TaskCreate : Type := mkTaskCreate {
  c_title : string;
  c_description : option string;
  c_status : string;
  c_due_date : option date
}.

(** [Optional[T] = Field(None)]: absent and [null] both give [None]. *)
Definition optional {A : Type} (f : Field A) : option A :=
  match f with
  | Val a => Some a
  | _ => None
  end.

(** Validation of a creation body; [None] is pydantic's ValidationError. *)
Definition validate_TaskCreate (p : Payload) : option TaskCreate :=
  match p_title p with
  | Val t =>
      if title_length_ok t then
        match p_status p with
        | Unset =>
            Some (mkTaskCreate t (optional (p_description p)) "pending"
                               (optional (p_due_date p)))
        | Val s =>
            if is_TaskStatus s then
              Some (mkTaskCreate t (optional (p_description p)) s
                                 (optional (p_due_date p)))
            else None
        | Null => None
        end
      else None
  | _ => None
  end.

(** [TaskUpdate]: every field is [Optional] with default [None]. The model
    remembers which fields the body set ([model_fields_set]): [Unset] is a
    field left at its default, [Null] a field set to [None]. *)
Record TaskUpdate : Type := mkTaskUpdate {
  u_title : Field string;
  u_description : Field string;
  u_status : Field string;
  u_due_date : Field date
}.

(** The constraints of an [Optional] field apply to a value, not to [None]. *)
Definition nullable_ok {A : Type} (ok : A -> bool) (f : Field A) : bool :=
  match f with
  | Val a => ok a
  | _ => true
  end.

Definition validate_TaskUpdate (p : Payload) : option TaskUpdate :=
  if nullable_ok title_length_ok (p_title p)
     && nullable_ok is_TaskStatus (p_status p)
  then Some (mkTaskUpdate (p_title p) (p_description p) (p_status p)
                          (p_due_date p))
  else None.

(** [Task(TaskBase)]: the record returned to clients. *)
Record Task : Type := mkTask {
  task_id : Z;
  title : string;
  description : option string;
  status : string;
  due_date : option date;
  created_at : datetime;
  updated_at : datetime
}.

(** A Python value passed to or returned by the driver. *)
Inductive Value : Type :=
| VNone
| VStr (s : string)
| VInt (z : Z)
| VDate (d : date).

Definition of_str (f : option string) : Value :=
  match f with Some s => VStr s | None => VNone end.

Definition of_date (f : option date) : Value :=
  match f with Some d => VDate d | None => VNone end.

(** [model_dump(exclude_unset=True)]: the dict of the fields that were set,
    in declaration order, [None] included. *)
Definition dump_field {A : Type} (key : string) (inj : A -> Value)
    (f : Field A) : list (string * Value) :=
  match f with
  | Unset => []
  | Null => [(key, VNone)]
  | Val a => [(key, inj a)]
  end.

Definition model_dump_exclude_unset (u : TaskUpdate) : list (string * Value) :=
  dump_field "title" VStr (u_title u)
  ++ dump_field "description" VStr (u_description u)
  ++ dump_field "status" VStr (u_status u)
  ++ dump_field "due_date" VDate (u_due_date u).

(* ===================================================================== *)
(** ** The datastore *)
(* ===================================================================== *)

(** A row of the [tasks] table as the driver returns it: a column that the
    table lets be NULL is an [option]. *)
Record Row : Type := mkRow {
  r_task_id : Z;
  r_title : option string;
  r_description : option string;
  r_status : option string;
  r_due_date : option date;
  r_created_at : datetime;
  r_updated_at : datetime
}.

(** The table definition is not among the application's modules: whether
    the [title] and [status] columns are declared NOT NULL is a parameter
    of the store. *)
Record Schema : Type := mkSchema {
  title_not_null : bool;
  status_not_null : bool
}.

(** The statements the repository sends. *)
Inductive Stmt : Type :=
| Insert (values : list Value)
| SelectOne (task_id : Z)
| SelectPage (limit skip : Z)
| Update (update_data : list (string * Value)) (task_id : Z)
| Delete (task_id : Z).

(** Modelled from the spec: the datastore behind the connection, which is
    an external collaborator (sections 3, 4.2, 4.3 and 6). A single table
    keyed by [task_id]; the store assigns [task_id], [created_at] and
    [updated_at]; every statement is durable at once (autocommit).
    [rows] is the table in storage order, [next_id] the key the next insert
    gets, [clock] the server time, [faults] tells which of the coming
    round trips fail, [log] lists the statements received so far. *)
Record DB : Type := mkDB {
  schema : Schema;
  rows : list Row;
  next_id : Z;
  clock : datetime;
  faults : list bool;
  log : list Stmt
}.

Definition set_rows (rs : list Row) (db : DB) : DB :=
  mkDB (schema db) rs (next_id db) (clock db) (faults db) (log db).

(** What a cursor holds after [execute]. *)
Record Cursor : Type := mkCursor {
  fetched : list Row;
  rowcount : Z;
  lastrowid : Z
}.

Inductive Exn : Type :=
| OperationalError
| IntegrityError
| ProgrammingError
| ValidationError.

Inductive Outcome (A : Type) : Type :=
| Return (a : A)
| Raise (e : Exn).
Arguments Return {A} a.
Arguments Raise {A} e.

(** A computation on the connection: a result or an exception, and the
    datastore it leaves behind in both cases. *)
Definition M (A : Type) : Type := DB -> Outcome A * DB.

Definition ret {A : Type} (a : A) : M A := fun db => (Return a, db).

Definition raise {A : Type} (e : Exn) : M A := fun db => (Raise e, db).

Definition bind {A B : Type} (m : M A) (k : A -> M B) : M B :=
  fun db =>
    match m db with
    | (Return a, db') => k a db'
    | (Raise e, db') => (Raise e, db')
    end.

(** [try: body  except Exception as e: handler] *)
Definition try_except {A : Type} (body : M A) (handler : Exn -> M A) : M A :=
  fun db =>
    match body db with
    | (Return a, db') => (Return a, db')
    | (Raise e, db') => handler e db'
    end.

Declare Scope monad_scope.
Delimit Scope monad_scope with monad.
Notation "x <- m ;; k" := (bind m (fun x => k))
  (at level 100, m at next level, right associativity) : monad_scope.
Local Open Scope monad_scope.

(** [ORDER BY created_at DESC]: the order relation of the sort. Rows with
    the same [created_at] keep an order the sort fixes. *)
Module CreatedAtDesc <: TotalLeBool.
Definition t := Row.
Definition leb (a b : Row) : bool := r_created_at b <=? r_created_at a.
Theorem leb_total : forall a b, leb a b = true \/ leb b a = true.
Proof. intros a b. unfold leb. rewrite !Z.leb_le. lia. Qed.
End CreatedAtDesc.

Module RowSort := Sort CreatedAtDesc.

Definition order_by_created_at_desc (rs : list Row) : list Row :=
  RowSort.sort rs.

(** One [column = value] of an UPDATE applied to a row; [None] when the
    store refuses it (NULL into a NOT NULL column, a value of the wrong
    type, an unknown column). *)
Definition assign (sch : Schema) (key : string) (v : Value) (r : Row)
  : option Row :=
  if String.eqb key "title" then
    match v with
    | VStr s => Some (mkRow (r_task_id r) (Some s) (r_description r) (r_status r)
                            (r_due_date r) (r_created_at r) (r_updated_at r))
    | VNone => if title_not_null sch then None
               else Some (mkRow (r_task_id r) None (r_description r) (r_status r)
                                (r_due_date r) (r_created_at r) (r_updated_at r))
    | _ => None
    end
  else if String.eqb key "description" then
    match v with
    | VStr s => Some (mkRow (r_task_id r) (r_title r) (Some s) (r_status r)
                            (r_due_date r) (r_created_at r) (r_updated_at r))
    | VNone => Some (mkRow (r_task_id r) (r_title r) None (r_status r)
                           (r_due_date r) (r_created_at r) (r_updated_at r))
    | _ => None
    end
  else if String.eqb key "status" then
    match v with
    | VStr s => Some (mkRow (r_task_id r) (r_title r) (r_description r) (Some s)
                            (r_due_date r) (r_created_at r) (r_updated_at r))
    | VNone => if status_not_null sch then None
               else Some (mkRow (r_task_id r) (r_title r) (r_description r) None
                                (r_due_date r) (r_created_at r) (r_updated_at r))
    | _ => None
    end
  else if String.eqb key "due_date" then
    match v with
    | VDate d => Some (mkRow (r_task_id r) (r_title r) (r_description r)
                             (r_status r) (Some d) (r_created_at r) (r_updated_at r))
    | VNone => Some (mkRow (r_task_id r) (r_title r) (r_description r)
                           (r_status r) None (r_created_at r) (r_updated_at r))
    | _ => None
    end
  else None.

Fixpoint assign_all (sch : Schema) (kvs : list (string * Value)) (r : Row)
  : option Row :=
  match kvs with
  | [] => Some r
  | (key, v) :: kvs' =>
      match assign sch key v r with
      | Some r' => assign_all sch kvs' r'
      | None => None
      end
  end.

Definition touch (now : datetime) (r : Row) : Row :=
  mkRow (r_task_id r) (r_title r) (r_description r) (r_status r)
        (r_due_date r) (r_created_at r) now.

(** [UPDATE tasks SET ... WHERE task_id = id] over the table: the rows after
    the statement and the number of rows matched, or [None] when a matching
    row refuses an assignment. A matched row gets [updated_at := now]. *)
Fixpoint update_rows (sch : Schema) (now : datetime)
    (kvs : list (string * Value)) (id : Z) (rs : list Row)
  : option (list Row * Z) :=
  match rs with
  | [] => Some ([], 0)
  | r :: rs' =>
      match update_rows sch now kvs id rs' with
      | None => None
      | Some (out, n) =>
          if r_task_id r =? id then
            match assign_all sch kvs r with
            | Some r' => Some (touch now r' :: out, n + 1)
            | None => None
            end
          else Some (r :: out, n)
      end
  end.

(** The row an INSERT of [(title, description, status, due_date)] adds. *)
Definition insert_row (id : Z) (now : datetime) (values : list Value)
  : option Row :=
  match values with
  | [VStr t; d; VStr s; dd] =>
      match d, dd with
      | (VStr _ | VNone), (VDate _ | VNone) =>
          Some (mkRow id (Some t)
                  (match d with VStr x => Some x | _ => None end)
                  (Some s)
                  (match dd with VDate x => Some x | _ => None end)
                  now now)
      | _, _ => None
      end
  | _ => None
  end.

(** The effect of a statement that reached the store. *)
Definition run (st : Stmt) : M Cursor := fun db =>
  match st with
  | Insert values =>
      match insert_row (next_id db) (clock db) values with
      | Some r =>
          (Return (mkCursor [] 1 (next_id db)),
           mkDB (schema db) (rows db ++ [r]) (next_id db + 1) (clock db)
                (faults db) (log db))
      | None => (Raise IntegrityError, db)
      end
  | SelectOne id =>
      let found := filter (fun r => r_task_id r =? id) (rows db) in
      (Return (mkCursor found (Z.of_nat (List.length found)) 0), db)
  | SelectPage limit skip =>
      if (limit <? 0) || (skip <? 0) then (Raise ProgrammingError, db)
      else
        let page := firstn (Z.to_nat limit)
                      (skipn (Z.to_nat skip)
                         (order_by_created_at_desc (rows db))) in
        (Return (mkCursor page (Z.of_nat (List.length page)) 0), db)
  | Update kvs id =>
      match update_rows (schema db) (clock db) kvs id (rows db) with
      | Some (rs, n) => (Return (mkCursor [] n 0), set_rows rs db)
      | None => (Raise IntegrityError, db)
      end
  | Delete id =>
      let kept := filter (fun r => negb (r_task_id r =? id)) (rows db) in
      let removed := Z.of_nat (List.length (rows db))
                     - Z.of_nat (List.length kept) in
      (Return (mkCursor [] removed 0), set_rows kept db)
  end.

(** A round trip was made: the statement is logged, the clock has moved on
    and one entry of [faults] is used up. *)
Definition sent (st : Stmt) (db : DB) : DB :=
  mkDB (schema db) (rows db) (next_id db) (clock db + 1)
       (tl (faults db)) (log db ++ [st]).

(** [await cursor.execute(query, values)]: one round trip. The next entry of
    [faults] decides whether it fails before the statement has any effect.
    The statement is passed in structured form; [query] and [values] below
    give the text and the parameters the source passes. *)
Definition execute (st : Stmt) : M Cursor := fun db =>
  match faults db with
  | true :: _ => (Raise OperationalError, sent st db)
  | _ => run st (sent st db)
  end.

(** [await cursor.fetchone()] *)
Definition fetchone (c : Cursor) : option Row := hd_error (fetched c).

(** [await cursor.fetchall()] *)
Definition fetchall (c : Cursor) : list Row := fetched c.

(* ===================================================================== *)
(** ** crud.py *)
(* ===================================================================== *)

(** [Task] built from the fetched row dict: pydantic validates the row, whose
    [title] and [status] come from [TaskBase]; [None] is a ValidationError. *)
Definition Task_of_row (result : Row) : option Task :=
  match r_title result, r_status result with
  | Some t, Some s =>
      if title_length_ok t && is_TaskStatus s then
        Some (mkTask (r_task_id result) t (r_description result) s
                     (r_due_date result) (r_created_at result)
                     (r_updated_at result))
      else None
  | _, _ => None
  end.

Definition new_Task (result : Row) : M Task :=
  match Task_of_row result with
  | Some t => ret t
  | None => raise ValidationError
  end.

(** The text and the parameters that [cursor.execute] is given. *)
Definition set_clause (update_data : list (string * Value)) : string :=
  String.concat ", " (map (fun kv => (fst kv ++ " = %s")%string) update_data).

Definition query (st : Stmt) : string :=
  match st with
  | Insert _ =>
      "INSERT INTO tasks (title, description, status, due_date) VALUES (%s, %s, %s, %s)"
  | SelectOne _ => "SELECT * FROM tasks WHERE task_id = %s"
  | SelectPage _ _ => "SELECT * FROM tasks ORDER BY created_at DESC LIMIT %s OFFSET %s"
  | Update update_data _ =>
      ("UPDATE tasks SET " ++ set_clause update_data ++ " WHERE task_id = %s")%string
  | Delete _ => "DELETE FROM tasks WHERE task_id = %s"
  end.

Definition values (st : Stmt) : list Value :=
  match st with
  | Insert vs => vs
  | SelectOne task_id => [VInt task_id]
  | SelectPage limit skip => [VInt limit; VInt skip]
  | Update update_data task_id => map snd update_data ++ [VInt task_id]
  | Delete task_id => [VInt task_id]
  end.

(** Retrieves a single task by its ID. *)
Definition get_task (task_id : Z) : M (option Task) :=
  try_except
    (cursor <- execute (SelectOne task_id) ;;
     match fetchone cursor with
     | Some result => t <- new_Task result ;; ret (Some t)
     | None => ret None
     end)
    (fun _ => ret None).

(** Creates a new task in the database. *)
Definition create_task (task : TaskCreate) : M (option Task) :=
  let values := [VStr (c_title task); of_str (c_description task);
                 VStr (c_status task); of_date (c_due_date task)] in
  try_except
    (cursor <- execute (Insert values) ;;
     let new_task_id := lastrowid cursor in
     get_task new_task_id)
    (fun _ => ret None).

(** [for row in results: tasks.append(...)], a [Task] built from each row. *)
Fixpoint append_tasks (results : list Row) (tasks : list Task) : M (list Task) :=
  match results with
  | [] => ret tasks
  | row :: results' =>
      t <- new_Task row ;;
      append_tasks results' (tasks ++ [t])
  end.

(** Retrieves a list of tasks with pagination. *)
Definition get_tasks (skip limit : Z) : M (list Task) :=
  let tasks := [] in
  try_except
    (cursor <- execute (SelectPage limit skip) ;;
     let results := fetchall cursor in
     append_tasks results tasks)
    (fun _ => ret []).

(** Updates an existing task. *)
Definition update_task (task_id : Z) (task_update : TaskUpdate)
  : M (option Task) :=
  existing_task <- get_task task_id ;;
  match existing_task with
  | None => ret None
  | Some _ =>
      let update_data := model_dump_exclude_unset task_update in
      match update_data with
      | [] => ret existing_task
      | _ :: _ =>
          try_except
            (cursor <- execute (Update update_data task_id) ;;
             if rowcount cursor =? 0 then get_task task_id
             else get_task task_id)
            (fun _ => ret None)
      end
  end.

(** Deletes a task by its ID. *)
Definition delete_task (task_id : Z) : M bool :=
  try_except
    (cursor <- execute (Delete task_id) ;;
     if rowcount cursor >? 0 then ret true else ret false)
    (fun _ => ret false).

(* ===================================================================== *)
(** ** main.py *)
(* ===================================================================== *)

Inductive Body : Type :=
| JTask (t : Task)
| JTasks (ts : list Task)
| JDetail (detail : string)
| JStatus (s : string)
| NoContent.

Record Response : Type := mkResponse {
  status_code : Z;
  body : Body
}.

(** [raise HTTPException(status_code=..., detail=...)] ends the handler with
    that response. *)
Definition HTTPException (status_code : Z) (detail : string) : Response :=
  mkResponse status_code (JDetail detail).

(** POST /tasks/ *)
Definition create_new_task (task : TaskCreate) : M Response :=
  created_task <- create_task task ;;
  match created_task with
  | None => ret (HTTPException 500 "Could not create task")
  | Some t => ret (mkResponse 201 (JTask t))
  end.

(** GET /tasks/ *)
Definition read_tasks (skip limit : Z) : M Response :=
  tasks <- get_tasks skip limit ;;
  ret (mkResponse 200 (JTasks tasks)).

(** GET /tasks/{task_id} *)
Definition read_task (task_id : Z) : M Response :=
  db_task <- get_task task_id ;;
  match db_task with
  | None => ret (HTTPException 404 "Task not found")
  | Some t => ret (mkResponse 200 (JTask t))
  end.

(** PUT /tasks/{task_id} *)
Definition update_existing_task (task_id : Z) (task : TaskUpdate) : M Response :=
  updated_task <- update_task task_id task ;;
  match updated_task with
  | None =>
      existing <- get_task task_id ;;
      match existing with
      | None => ret (HTTPException 404 "Task not found")
      | Some _ => ret (HTTPException 500 "Could not update task")
      end
  | Some t => ret (mkResponse 200 (JTask t))
  end.

(** DELETE /tasks/{task_id} *)
Definition delete_existing_task (task_id : Z) : M Response :=
  success <- delete_task task_id ;;
  if negb success then ret (HTTPException 404 "Task not found")
  else ret (mkResponse 204 NoContent).

(** GET /health *)
Definition health_check : M Response :=
  ret (mkResponse 200 (JStatus "healthy")).

(** The framework validates the request body against the handler's
    parameter type before it calls the handler; a body that fails is
    answered 422 and the handler does not run. *)
Definition unprocessable : Response := mkResponse 422 (JDetail "validation error").

Definition POST_tasks (p : Payload) : M Response :=
  match validate_TaskCreate p with
  | Some task => create_new_task task
  | None => ret unprocessable
  end.

Definition PUT_task (task_id : Z) (p : Payload) : M Response :=
  match validate_TaskUpdate p with
  | Some task => update_existing_task task_id task
  | None => ret unprocessable
  end.

(** [skip: int = Query(0, ge=0)], [limit: int = Query(100, ge=1, le=200)] *)
Definition GET_tasks (skip limit : option Z) : M Response :=
  let skip := match skip with Some s => s | None => 0 end in
  let limit := match limit with Some l => l | None => 100 end in
  if (skip >=? 0) && (limit >=? 1) && (limit <=? 200) then read_tasks skip limit
  else ret unprocessable.

(* ===================================================================== *)
(** ** Properties of datastore states *)
(* ===================================================================== *)

(** No round trip of the rest of the run fails. *)
Definition healthy (db : DB) : Prop := Forall (fun b => b = false) (faults db).

(** Some stored row has this key. *)
Definition stored (id : Z) (db : DB) : Prop :=
  exists r, In r (rows db) /\ r_task_id r = id.

(** The stored row with a given key, if any. *)
Definition lookup (id : Z) (db : DB) : option Row :=
  find (fun r => r_task_id r =? id) (rows db).

(** A sample table: four tasks, two of them created at the same time. *)
Definition sample_rows : list Row :=
  [ mkRow 1 (Some "write report") None (Some "pending") None 100 100;
    mkRow 2 (Some "review") (Some "second pass") (Some "in_progress") (Some 20) 105 110;
    mkRow 3 (Some "deploy") None (Some "pending") (Some 30) 105 105;
    mkRow 4 (Some "retro") None (Some "completed") None 120 130 ].

Definition row_2 : Row :=
  mkRow 2 (Some "review") (Some "second pass") (Some "in_progress") (Some 20) 105 110.

Definition task_2 : Task :=
  mkTask 2 "review" (Some "second pass") "in_progress" (Some 20) 105 110.

(** The update bodies [{"title": null}], [{"status": null}] and
    [{"status": "completed"}]. *)
Definition null_title : TaskUpdate := mkTaskUpdate Null Unset Unset Unset.
Definition null_status : TaskUpdate := mkTaskUpdate Unset Unset Null Unset.
Definition set_completed : TaskUpdate :=
  mkTaskUpdate Unset Unset (Val "completed") Unset.

Definition strict : Schema := mkSchema true true.
Definition lax : Schema := mkSchema false false.

Definition sample_db (sch : Schema) (faults : list bool) : DB :=
  mkDB sch sample_rows 5 200 faults [].

(** The responses the handlers raise. *)
Definition not_found : Response := HTTPException 404 "Task not found".
Definition could_not_update : Response := HTTPException 500 "Could not update task".
Definition could_not_create : Response := HTTPException 500 "Could not create task".

(** The update body that sets no field. *)
Definition no_fields : TaskUpdate := mkTaskUpdate Unset Unset Unset Unset.

(** What a supplied field makes of a stored value. *)
Definition set_field {A : Type} (f : Field A) (old : option A) : option A :=
  match f with
  | Unset => old
  | Null => None
  | Val a => Some a
  end.

(** The records a list of rows reads back as. *)
Definition tasks_of (rs : list Row) : list Task :=
  flat_map (fun r => match Task_of_row r with Some t => [t] | None => [] end) rs.

(** Every stored record, most recently created first. *)
Definition stored_tasks (db : DB) : list Task :=
  tasks_of (order_by_created_at_desc (rows db)).

(** The next round trip goes through. *)
Definition next_ok (db : DB) : Prop := hd false (faults db) = false.

(** The next round trip fails. *)
Definition next_fails (db : DB) : Prop := hd false (faults db) = true.

(** All rows read back as records, or [None] when one of them does not. *)
Fixpoint Tasks_of_rows (rs : list Row) : option (list Task) :=
  match rs with
  | [] => Some []
  | r :: rs' =>
      match Task_of_row r with
      | Some t =>
          match Tasks_of_rows rs' with
          | Some ts => Some (t :: ts)
          | None => None
          end
      | None => None
      end
  end.

(** The rows [LIMIT limit OFFSET skip] selects. *)
Definition page (skip limit : Z) (db : DB) : list Row :=
  firstn (Z.to_nat limit)
    (skipn (Z.to_nat skip) (order_by_created_at_desc (rows db))).

(** Most recently created first. *)
Definition newer_first (a b : Task) : Prop := created_at b <= created_at a.

(** A row after an update body was applied to it field by field. *)
Definition apply_update (u : TaskUpdate) (r : Row) : Row :=
  mkRow (r_task_id r)
        (set_field (u_title u) (r_title r))
        (set_field (u_description u) (r_description r))
        (set_field (u_status u) (r_status r))
        (set_field (u_due_date u) (r_due_date r))
        (r_created_at r) (r_updated_at r).

(** The update body sets to NULL a column that the table declares NOT NULL. *)
Definition store_rejects (sch : Schema) (u : TaskUpdate) : bool :=
  (match u_title u with Null => title_not_null sch | _ => false end)
  || (match u_status u with Null => status_not_null sch | _ => false end).

(** The rows after an accepted [UPDATE ... WHERE task_id = id]. *)
Definition updated_rows (now : datetime) (u : TaskUpdate) (id : Z)
    (rs : list Row) : list Row :=
  map (fun r => if r_task_id r =? id then touch now (apply_update u r) else r) rs.

(** What [TaskBase] accepts for [status]: left out, or one of the literals. *)
Definition create_status_ok (f : Field string) : bool :=
  match f with
  | Unset => true
  | Val s => is_TaskStatus s
  | Null => false
  end.

(** A title of [n] characters. *)
Fixpoint title_of_length (n : nat) : string :=
  match n with
  | O => ""
  | S n' => String "a"%char (title_of_length n')
  end.

(** The row that [create_task] asks the store to add. *)
Definition created_row (task : TaskCreate) (id : Z) (now : datetime) : Row :=
  mkRow id (Some (c_title task)) (c_description task) (Some (c_status task))
        (c_due_date task) now now.

(** The parameters of the INSERT that [create_task] sends. *)
Definition insert_values (task : TaskCreate) : list Value :=
  [VStr (c_title task); of_str (c_description task);
   VStr (c_status task); of_date (c_due_date task)].

(* ===================================================================== *)
(** ** database.py *)
(* ===================================================================== *)

(** A connection pool as [aiomysql.create_pool] returns it: which pool it
    is, and the settings it was opened with. *)
Record Pool : Type := mkPool {
  pool_id : nat;
  minsize : Z;
  maxsize : Z;
  autocommit : bool
}.

(** The process-wide state of [database.py]: the global [pool], the number
    of pools opened so far, the pools closed so far, and which of the coming
    attempts to reach the server fail. *)
Record Process : Type := mkProcess {
  pool : option Pool;
  opened : nat;
  closed : list nat;
  connect_faults : list bool
}.

(** The [autocommit] entry of [DB_CONFIG]; host, port and credentials come
    from the environment and play no part in what follows. *)
Definition DB_CONFIG_autocommit : bool := true.

(** [await aiomysql.create_pool(...)]: a new pool, or an exception when the
    server cannot be reached. *)
Definition create_pool (autocommit : bool) (minsize maxsize : Z)
  : Process -> Outcome Pool * Process :=
  fun ps =>
    match connect_faults ps with
    | true :: fs =>
        (Raise OperationalError, mkProcess (pool ps) (opened ps) (closed ps) fs)
    | fs =>
        (Return (mkPool (opened ps) minsize maxsize autocommit),
         mkProcess (pool ps) (S (opened ps)) (closed ps) (tl fs))
    end.

(** Creates and returns an aiomysql connection pool. The exception of a
    failed [create_pool] is logged and raised again. *)
Definition get_db_pool : Process -> Outcome Pool * Process :=
  fun ps =>
    match pool ps with
    | None =>
        match create_pool DB_CONFIG_autocommit 1 10 ps with
        | (Return p, ps') =>
            (Return p,
             mkProcess (Some p) (opened ps') (closed ps') (connect_faults ps'))
        | (Raise e, ps') => (Raise e, ps')
        end
    | Some p => (Return p, ps)
    end.

(** Closes the database connection pool. *)
Definition close_db_pool : Process -> Outcome unit * Process :=
  fun ps =>
    match pool ps with
    | Some p =>
        (Return tt,
         mkProcess None (opened ps) (closed ps ++ [pool_id p])
                   (connect_faults ps))
    | None => (Return tt, ps)
    end.

(** [@app.on_event("startup")] and [@app.on_event("shutdown")] of main.py. *)
Definition startup_event : Process -> Outcome unit * Process :=
  fun ps =>
    match get_db_pool ps with
    | (Return _, ps') => (Return tt, ps')
    | (Raise e, ps') => (Raise e, ps')
    end.

Definition shutdown_event : Process -> Outcome unit * Process :=
  close_db_pool.

(* ===================================================================== *)
(** ** Further properties of statements and tables *)
(* ===================================================================== *)

(** Every row of the table reads back as a [Task]. *)
Definition readable (db : DB) : Prop :=
  Forall (fun r => Task_of_row r <> None) (rows db).

(** Both nullable-looking columns are declared NOT NULL. *)
Definition not_null_columns (db : DB) : Prop :=
  title_not_null (schema db) = true /\ status_not_null (schema db) = true.

(** The number of [%s] placeholders in a query text. *)
Fixpoint count_placeholders (s : string) : nat :=
  match s with
  | EmptyString => O
  | String c s' =>
      match s' with
      | String c' s'' =>
          if Ascii.eqb c "%" && Ascii.eqb c' "s"
          then S (count_placeholders s'')
          else count_placeholders s'
      | EmptyString => O
      end
  end.

(** The columns of the [tasks] table that a request can set. *)
Definition settable_columns : list string :=
  ["title"; "description"; "status"; "due_date"].

(** What an UPDATE may do to a row: the key and the time of creation stay,
    and a row with another key stays as it is. *)
Definition update_frame (id : Z) (r r' : Row) : Prop :=
  r_task_id r' = r_task_id r
  /\ r_created_at r' = r_created_at r
  /\ (r_task_id r <> id -> r' = r).

(** The status a creation body asks for. *)
Definition requested_status (p : Payload) : string :=
  match p_status p with
  | Val s => s
  | _ => "pending"
  end.

(* ===================================================================== *)
(** ** Facts about the datastore and the monad *)
(* ===================================================================== *)

Section StoreFacts.

Lemma hd_error_filter {A : Type} (f : A -> bool) (l : list A) :
  hd_error (filter f l) = find f l.
Proof.
  induction l as [|a l IH]; simpl; [reflexivity|].
  destruct (f a); simpl; auto.
Qed.

Lemma execute_fails st db :
  next_fails db -> execute st db = (Raise OperationalError, sent st db).
Proof.
  unfold next_fails, execute. destruct (faults db) as [|[] fs]; simpl; congruence.
Qed.

Lemma execute_ok st db :
  next_ok db -> execute st db = run st (sent st db).
Proof.
  unfold next_ok, execute. destruct (faults db) as [|[] fs]; simpl; congruence.
Qed.

Lemma next_ok_or_fails db : next_ok db \/ next_fails db.
Proof. unfold next_ok, next_fails. destruct (hd false (faults db)); auto. Qed.

Lemma healthy_next_ok db : healthy db -> next_ok db.
Proof.
  unfold healthy, next_ok. destruct (faults db) as [|b fs]; simpl; auto.
  intros H. inversion H; auto.
Qed.

Lemma healthy_sent st db : healthy db -> healthy (sent st db).
Proof.
  unfold healthy. simpl. destruct (faults db) as [|b fs]; simpl; auto.
  intros H. inversion H; auto.
Qed.

Lemma healthy_set_rows rs db : healthy db -> healthy (set_rows rs db).
Proof. auto. Qed.

Lemma lookup_sent id st db : lookup id (sent st db) = lookup id db.
Proof. reflexivity. Qed.

Lemma lookup_not_stored id db : ~ stored id db -> lookup id db = None.
Proof.
  unfold stored, lookup. intros H.
  destruct (find _ (rows db)) as [r|] eqn:E; [|reflexivity].
  apply find_some in E. destruct E as [Hin Heq].
  exfalso. apply H. exists r. split; auto. now apply Z.eqb_eq.
Qed.

Lemma lookup_stored id db r :
  lookup id db = Some r -> In r (rows db) /\ r_task_id r = id.
Proof.
  unfold lookup. intros E. apply find_some in E.
  destruct E as [Hin Heq]. split; auto. now apply Z.eqb_eq.
Qed.

(** The whole of [get_task] in one equation: it never raises, it leaves
    the table alone, and it answers [None] for a failed round trip, for a
    missing row and for a row that is no [Task]. *)
Lemma get_task_eq id db :
  get_task id db =
  (Return (if hd false (faults db) then None
           else match lookup id db with
                | Some r => Task_of_row r
                | None => None
                end),
   sent (SelectOne id) db).
Proof.
  unfold get_task, try_except, bind.
  destruct (next_ok_or_fails db) as [H|H].
  - rewrite (execute_ok _ _ H). unfold next_ok in H. rewrite H.
    unfold run, fetchone. cbn [fetched fst snd].
    rewrite hd_error_filter. change (rows (sent (SelectOne id) db)) with (rows db).
    unfold lookup. destruct (find _ (rows db)) as [r|]; [|reflexivity].
    unfold new_Task. destruct (Task_of_row r); reflexivity.
  - rewrite (execute_fails _ _ H). unfold next_fails in H. rewrite H.
    reflexivity.
Qed.

Lemma get_task_found id db r t :
  next_ok db -> lookup id db = Some r -> Task_of_row r = Some t ->
  get_task id db = (Return (Some t), sent (SelectOne id) db).
Proof.
  intros H L T. rewrite get_task_eq. unfold next_ok in H.
  now rewrite H, L, T.
Qed.

Lemma get_task_none id db :
  next_fails db \/ lookup id db = None ->
  get_task id db = (Return None, sent (SelectOne id) db).
Proof.
  intros [H|H]; rewrite get_task_eq.
  - unfold next_fails in H. now rewrite H.
  - rewrite H. now destruct (hd false (faults db)).
Qed.

Lemma filter_none_id {A : Type} (f : A -> bool) (l : list A) :
  (forall a, In a l -> f a = true) -> filter f l = l.
Proof.
  induction l as [|a l IH]; simpl; intros H; [reflexivity|].
  rewrite (H a (or_introl eq_refl)). f_equal. apply IH. auto.
Qed.

Lemma filter_length_le {A : Type} (f : A -> bool) (l : list A) :
  (List.length (filter f l) <= List.length l)%nat.
Proof.
  induction l as [|a l IH]; simpl; [lia|]. destruct (f a); simpl; lia.
Qed.

Lemma filter_length_eq {A : Type} (f : A -> bool) (l : list A) :
  List.length (filter f l) = List.length l -> filter f l = l.
Proof.
  induction l as [|a l IH]; simpl; [reflexivity|].
  destruct (f a); simpl; intros H.
  - f_equal. apply IH. lia.
  - pose proof (filter_length_le f l). lia.
Qed.

(** The whole of [delete_task] in one equation. *)
Lemma delete_task_eq id db :
  delete_task id db =
  if hd false (faults db) then (Return false, sent (Delete id) db)
  else
    let kept := filter (fun r => negb (r_task_id r =? id)) (rows db) in
    (Return (Z.of_nat (List.length (rows db)) - Z.of_nat (List.length kept) >? 0),
     set_rows kept (sent (Delete id) db)).
Proof.
  unfold delete_task, try_except, bind.
  destruct (next_ok_or_fails db) as [H|H].
  - rewrite (execute_ok _ _ H). unfold next_ok in H. rewrite H.
    unfold run. cbn [rowcount].
    change (rows (sent (Delete id) db)) with (rows db).
    cbv zeta.
    destruct (_ >? 0); reflexivity.
  - rewrite (execute_fails _ _ H). unfold next_fails in H. rewrite H.
    reflexivity.
Qed.

Lemma kept_all id db :
  ~ stored id db ->
  filter (fun r => negb (r_task_id r =? id)) (rows db) = rows db.
Proof.
  intros H. apply filter_none_id. intros r Hin.
  destruct (r_task_id r =? id) eqn:E; [|reflexivity].
  exfalso. apply H. exists r. split; auto. now apply Z.eqb_eq.
Qed.

End StoreFacts.

Section ReadFacts.

Lemma append_tasks_eq rs : forall acc db,
  append_tasks rs acc db =
  match Tasks_of_rows rs with
  | Some ts => (Return (acc ++ ts), db)
  | None => (Raise ValidationError, db)
  end.
Proof.
  induction rs as [|r rs IH]; intros acc db; simpl.
  - unfold ret. now rewrite app_nil_r.
  - unfold bind, new_Task. destruct (Task_of_row r) as [t|]; [|reflexivity].
    unfold ret at 1. rewrite IH.
    destruct (Tasks_of_rows rs) as [ts|]; [|reflexivity].
    now rewrite <- app_assoc.
Qed.

(** The whole of [get_tasks] in one equation. *)
Lemma get_tasks_eq skip limit db :
  get_tasks skip limit db =
  (Return (if hd false (faults db) then []
           else if (limit <? 0) || (skip <? 0) then []
           else match Tasks_of_rows (page skip limit db) with
                | Some ts => ts
                | None => []
                end),
   sent (SelectPage limit skip) db).
Proof.
  unfold get_tasks, try_except, bind.
  destruct (next_ok_or_fails db) as [H|H].
  - rewrite (execute_ok _ _ H). unfold next_ok in H. rewrite H.
    unfold run. destruct ((limit <? 0) || (skip <? 0)); [reflexivity|].
    unfold fetchall. cbn [fetched]. rewrite append_tasks_eq.
    change (rows (sent (SelectPage limit skip) db)) with (rows db).
    fold (page skip limit db).
    destruct (Tasks_of_rows (page skip limit db)); reflexivity.
  - rewrite (execute_fails _ _ H). unfold next_fails in H. now rewrite H.
Qed.

Lemma Tasks_of_rows_valid rs :
  Forall (fun r => Task_of_row r <> None) rs ->
  Tasks_of_rows rs = Some (tasks_of rs).
Proof.
  induction 1 as [|r rs Hr _ IH]; simpl; [reflexivity|].
  destruct (Task_of_row r) as [t|]; [|congruence].
  now rewrite IH.
Qed.

End ReadFacts.

(* ===================================================================== *)
(** ** Absent tasks and failed reads *)
(* ===================================================================== *)

Lemma sample_99_not_stored sch fs : ~ stored 99 (sample_db sch fs).
Proof.
  intros [r [Hin Heq]]. simpl in Hin.
  repeat (destruct Hin as [<-|Hin]; [discriminate Heq|]). exact Hin.
Qed.

Lemma sample_2_stored sch fs : stored 2 (sample_db sch fs).
Proof.
  exists row_2. split; [simpl; auto|reflexivity].
Qed.

(** A delete that reports success leaves no row with that key. *)
Lemma deleted_not_stored id db :
  fst (delete_task id db) = Return true -> ~ stored id (snd (delete_task id db)).
Proof.
  rewrite delete_task_eq. destruct (hd false (faults db)); simpl; [discriminate|].
  intros _ [r [Hin Heq]]. apply filter_In in Hin. destruct Hin as [_ Hne].
  apply Z.eqb_eq in Heq. rewrite Heq in Hne. discriminate.
Qed.

(** C3: for a [task_id] with no stored row (never created, or deleted),
    [get_task] returns [None]; [update_task] returns [None] for every
    payload, having sent the existence check and nothing else, so no write
    was attempted; [delete_task] returns [False] and removes no row; the
    three handlers answer 404. This holds whether or not the round trips
    succeed. *)
Theorem missing_task_is_not_found (id : Z) (db : DB) :
  ~ stored id db ->
  fst (get_task id db) = Return None
  /\ (forall u : TaskUpdate,
        fst (update_task id u db) = Return None
        /\ log (snd (update_task id u db)) = log db ++ [SelectOne id]
        /\ rows (snd (update_task id u db)) = rows db)
  /\ fst (delete_task id db) = Return false
  /\ rows (snd (delete_task id db)) = rows db
  /\ fst (read_task id db) = Return not_found
  /\ (forall u : TaskUpdate, fst (update_existing_task id u db) = Return not_found)
  /\ fst (delete_existing_task id db) = Return not_found.
Proof.
  intros H.
  pose proof (lookup_not_stored _ _ H) as L.
  assert (G : forall d, rows d = rows db ->
                        get_task id d = (Return None, sent (SelectOne id) d)).
  { intros d E. apply get_task_none. right. unfold lookup. rewrite E. exact L. }
  assert (U : forall u, update_task id u db = (Return None, sent (SelectOne id) db)).
  { intros u. unfold update_task, bind. now rewrite (G db eq_refl). }
  assert (D : fst (delete_task id db) = Return false
              /\ rows (snd (delete_task id db)) = rows db).
  { rewrite delete_task_eq. destruct (hd false (faults db)); simpl; [auto|].
    rewrite (kept_all _ _ H). split; [|reflexivity].
    f_equal. rewrite Z.sub_diag. reflexivity. }
  destruct D as [D1 D2].
  repeat split.
  - now rewrite (G db eq_refl).
  - now rewrite U.
  - now rewrite U.
  - now rewrite U.
  - exact D1.
  - exact D2.
  - unfold read_task, bind. now rewrite (G db eq_refl).
  - intros u. unfold update_existing_task, bind. rewrite U.
    now rewrite (G (sent (SelectOne id) db) eq_refl).
  - unfold delete_existing_task, bind.
    destruct (delete_task id db) as [[b|e] d] eqn:E; simpl in D1;
      inversion D1; subst; reflexivity.
Qed.

(** C3 at a key that was stored and then deleted. *)
Lemma missing_task_is_not_found_witness :
  fst (delete_task 2 (sample_db strict [])) = Return true
  /\ fst (get_task 2 (snd (delete_task 2 (sample_db strict [])))) = Return None.
Proof.
  split; [reflexivity|].
  apply (missing_task_is_not_found 2 (snd (delete_task 2 (sample_db strict [])))).
  intros [r [Hin Heq]]. vm_compute in Hin.
  repeat (destruct Hin as [<-|Hin]; [discriminate Heq|]). exact Hin.
Defined.

(** C7: when the round trip fails, [get_task] returns [None], which is what
    it returns for a key that is not stored, and [get_tasks] returns the
    empty list, which is what it returns for an empty table; the handlers
    answer accordingly (404, and 200 with an empty list). *)
Theorem storage_failure_reads_as_absence (id skip limit : Z) (db : DB) :
  next_fails db ->
  fst (get_task id db) = Return None
  /\ fst (get_tasks skip limit db) = Return []
  /\ (forall db', ~ stored id db' -> fst (get_task id db') = fst (get_task id db))
  /\ (forall db', rows db' = [] ->
        fst (get_tasks skip limit db') = fst (get_tasks skip limit db))
  /\ fst (read_task id db) = Return not_found
  /\ fst (read_tasks skip limit db) = Return (mkResponse 200 (JTasks [])).
Proof.
  intros H.
  assert (G : get_task id db = (Return None, sent (SelectOne id) db)).
  { apply get_task_none. now left. }
  assert (L : fst (get_tasks skip limit db) = Return []).
  { rewrite get_tasks_eq. unfold next_fails in H. now rewrite H. }
  repeat split.
  - now rewrite G.
  - exact L.
  - intros db' N. rewrite G, get_task_none; [reflexivity|].
    right. now apply lookup_not_stored.
  - intros db' E. rewrite L, get_tasks_eq. simpl.
    destruct (hd false (faults db')); [reflexivity|].
    destruct ((limit <? 0) || (skip <? 0)); [reflexivity|].
    unfold page, order_by_created_at_desc. rewrite E. simpl.
    rewrite skipn_nil, firstn_nil. reflexivity.
  - unfold read_task, bind. now rewrite G.
  - unfold read_tasks, bind.
    destruct (get_tasks skip limit db) as [[ts|e] d]; simpl in L;
      inversion L; reflexivity.
Qed.

Lemma storage_failure_reads_as_absence_witness :
  fst (get_task 2 (sample_db strict [true])) = Return None
  /\ fst (get_tasks 0 2 (sample_db strict [true])) = Return [].
Proof.
  destruct (storage_failure_reads_as_absence 2 0 2 (sample_db strict [true])
              eq_refl) as (G & L & _).
  exact (conj G L).
Defined.

(* ===================================================================== *)
(** ** Delete *)
(* ===================================================================== *)

Section DeleteFacts.

Variable id : Z.

Abbreviation other := (fun r : Row => negb (r_task_id r =? id)).

Lemma keyed_delete_removes_one rs :
  NoDup (map r_task_id rs) ->
  (exists r, In r rs /\ r_task_id r = id) ->
  List.length rs = S (List.length (filter other rs)).
Proof.
  induction rs as [|r rs IH]; intros N [x [Hin Hx]]; [destruct Hin|].
  simpl in N. apply NoDup_cons_iff in N. destruct N as [Hnot N'].
  simpl.
  destruct (r_task_id r =? id) eqn:E; simpl.
  - f_equal. rewrite filter_none_id; [reflexivity|].
    intros a Ha.
    destruct (r_task_id a =? id) eqn:Ea; [|reflexivity].
    exfalso. apply Hnot. apply Z.eqb_eq in E, Ea.
    rewrite E, <- Ea. now apply in_map.
  - f_equal. apply IH; [exact N'|].
    destruct Hin as [->|Hin].
    + apply Z.eqb_neq in E. contradiction.
    + exists x. auto.
Qed.

Lemma find_other_key id' rs :
  id' <> id ->
  find (fun r => r_task_id r =? id') (filter other rs)
  = find (fun r => r_task_id r =? id') rs.
Proof.
  intros Hne. induction rs as [|r rs IH]; simpl; [reflexivity|].
  destruct (r_task_id r =? id) eqn:E; simpl.
  - destruct (r_task_id r =? id') eqn:E'; [|exact IH].
    apply Z.eqb_eq in E, E'. congruence.
  - now rewrite IH.
Qed.

End DeleteFacts.

(** C4, as the code has it: [delete_task] never raises; it returns [True]
    exactly when the round trip went through and a row had the key, in
    which case that one row is gone and every other row is untouched, and
    the handler answers 204; it returns [False] with the table unchanged
    otherwise, and the handler answers 404. A failed round trip is one of
    the [False] cases: it gets the same 404 as a missing row. *)
Theorem delete_reports_removed_row (id : Z) (db : DB) :
  NoDup (map r_task_id (rows db)) ->
  exists (b : bool) (db' : DB),
    delete_task id db = (Return b, db')
    /\ (b = true <-> next_ok db /\ stored id db)
    /\ List.length (rows db)
       = (List.length (rows db') + (if b then 1 else 0))%nat
    /\ (b = true -> ~ stored id db')
    /\ (forall id', id' <> id -> lookup id' db' = lookup id' db)
    /\ (b = false -> rows db' = rows db)
    /\ (next_fails db -> b = false)
    /\ fst (delete_existing_task id db)
       = Return (if b then mkResponse 204 NoContent else not_found).
Proof.
  intros N.
  assert (R : forall b d, delete_task id db = (Return b, d) ->
              fst (delete_existing_task id db)
              = Return (if b then mkResponse 204 NoContent else not_found)).
  { intros b d E. unfold delete_existing_task, bind. rewrite E.
    destruct b; reflexivity. }
  pose proof (delete_task_eq id db) as E.
  destruct (hd false (faults db)) eqn:F.
  - (* the round trip fails *)
    exists false, (sent (Delete id) db). split; [exact E|].
    repeat split; try (intros; discriminate); try reflexivity.
    + intros [Hok _]. unfold next_ok in Hok. congruence.
    + simpl. lia.
    + exact (R _ _ E).
  - destruct (lookup id db) as [r|] eqn:L.
    + (* a row has the key *)
      apply lookup_stored in L. destruct L as [Hin Hid].
      assert (St : stored id db) by (exists r; auto).
      pose proof (keyed_delete_removes_one id (rows db) N St) as Len.
      cbv zeta in E.
      replace (_ - _ >? 0) with true in E
        by (symmetry; apply Z.gtb_lt; lia).
      eexists true, _. split; [exact E|].
      repeat split; try (intros; discriminate); auto.
      * simpl. rewrite Len. lia.
      * intros _ [x [Hx Hxid]]. simpl in Hx. apply filter_In in Hx.
        destruct Hx as [_ Hne]. apply Z.eqb_eq in Hxid.
        rewrite Hxid in Hne. discriminate.
      * intros id' Hne. unfold lookup. simpl. now apply find_other_key.
      * unfold next_fails. congruence.
      * exact (R _ _ E).
    + (* no row has the key *)
      assert (St : ~ stored id db).
      { intros [x [Hx Hxid]]. unfold lookup in L.
        apply (find_none _ _ L) in Hx. apply Z.eqb_neq in Hx. contradiction. }
      cbv zeta in E. rewrite (kept_all _ _ St), Z.sub_diag in E.
      change (0 >? 0) with false in E.
      change (set_rows (rows db) (sent (Delete id) db))
        with (sent (Delete id) db) in E.
      exists false, (sent (Delete id) db). split; [exact E|].
      repeat split; try (intros; discriminate); try reflexivity.
      * intros [_ Hs]. contradiction.
      * simpl. lia.
      * exact (R _ _ E).
Qed.

Lemma delete_reports_removed_row_witness :
  exists b db',
    delete_task 2 (sample_db strict []) = (Return b, db')
    /\ fst (delete_existing_task 2 (sample_db strict []))
       = Return (if b then mkResponse 204 NoContent else not_found).
Proof.
  assert (N : NoDup (map r_task_id (rows (sample_db strict [])))).
  { simpl. repeat constructor; simpl; intuition discriminate. }
  destruct (delete_reports_removed_row 2 (sample_db strict []) N)
    as (b & db' & E & _ & _ & _ & _ & _ & _ & R).
  exists b, db'. exact (conj E R).
Defined.

(** C4 as stated fails where the round trip fails: the task is stored, the
    delete raises inside the repository, and the caller gets what it gets
    for a key that is not stored, [False] and 404. *)
Lemma delete_failure_reads_as_not_found :
  next_fails (sample_db strict [true])
  /\ stored 2 (sample_db strict [true])
  /\ ~ stored 99 (sample_db strict [])
  /\ ~ (fst (delete_task 2 (sample_db strict [true]))
        <> fst (delete_task 99 (sample_db strict [])))
  /\ ~ (fst (delete_existing_task 2 (sample_db strict [true]))
        <> fst (delete_existing_task 99 (sample_db strict [])))
  /\ fst (delete_existing_task 2 (sample_db strict [true])) = Return not_found.
Proof.
  split; [reflexivity|].
  split; [apply sample_2_stored|].
  split; [apply sample_99_not_stored|].
  split; [intros H; apply H; reflexivity|].
  split; [intros H; apply H; reflexivity|reflexivity].
Qed.

(* ===================================================================== *)
(** ** Update *)
(* ===================================================================== *)

Lemma dump_nil_iff u : model_dump_exclude_unset u = [] <-> u = no_fields.
Proof.
  split.
  - destruct u as [[| |t] [| |d] [| |s] [| |dd]]; simpl; intros H;
      try discriminate H; reflexivity.
  - intros ->. reflexivity.
Qed.

(** C2: an update body that sets no field validates to the empty update;
    [update_task] with it sends the existence check and nothing else, so
    the table, and with it [updated_at], is as before; and when the
    existence check goes through it returns the existing record. *)
Theorem update_with_no_fields_is_noop (id : Z) (db : DB) (r : Row) (t : Task) :
  lookup id db = Some r ->
  Task_of_row r = Some t ->
  validate_TaskUpdate (mkPayload Unset Unset Unset Unset) = Some no_fields
  /\ rows (snd (update_task id no_fields db)) = rows db
  /\ log (snd (update_task id no_fields db)) = log db ++ [SelectOne id]
  /\ lookup id (snd (update_task id no_fields db)) = Some r
  /\ (next_ok db ->
      fst (update_task id no_fields db) = Return (Some t)
      /\ fst (update_existing_task id no_fields db)
         = Return (mkResponse 200 (JTask t))).
Proof.
  intros L T.
  assert (E : update_task id no_fields db
              = (fst (get_task id db), sent (SelectOne id) db)).
  { unfold update_task, bind. rewrite get_task_eq. simpl.
    destruct (hd false (faults db)); [reflexivity|].
    rewrite L, T. reflexivity. }
  split; [reflexivity|].
  rewrite E. simpl.
  repeat split; auto.
  - now rewrite (get_task_found id db r t).
  - unfold update_existing_task, bind. rewrite E.
    rewrite (get_task_found id db r t); auto.
Qed.

Lemma update_with_no_fields_is_noop_witness :
  fst (update_task 2 no_fields (sample_db strict [])) = Return (Some task_2)
  /\ rows (snd (update_task 2 no_fields (sample_db strict []))) = sample_rows.
Proof.
  destruct (update_with_no_fields_is_noop 2 (sample_db strict [])
              row_2 task_2 eq_refl eq_refl) as (_ & R & _ & _ & K).
  split; [apply K; reflexivity | exact R].
Defined.

Section UpdateFacts.

Lemma assign_all_dump sch u r :
  assign_all sch (model_dump_exclude_unset u) r
  = if store_rejects sch u then None else Some (apply_update u r).
Proof.
  destruct sch as [[] []], r as [k t d s dd c m],
           u as [[| |t'] [| |d'] [| |s'] [| |dd']]; reflexivity.
Qed.

Lemma update_rows_accept sch now u id rs :
  store_rejects sch u = false ->
  update_rows sch now (model_dump_exclude_unset u) id rs
  = Some (updated_rows now u id rs,
          Z.of_nat (List.length (filter (fun r => r_task_id r =? id) rs))).
Proof.
  intros A. induction rs as [|r rs IH]; [reflexivity|].
  cbn [update_rows]. rewrite IH.
  unfold updated_rows. cbn [map filter].
  destruct (r_task_id r =? id); [|reflexivity].
  rewrite assign_all_dump, A. cbn [List.length].
  rewrite Nat2Z.inj_succ. reflexivity.
Qed.

Lemma update_rows_reject sch now u id rs :
  store_rejects sch u = true ->
  (exists r, In r rs /\ r_task_id r = id) ->
  update_rows sch now (model_dump_exclude_unset u) id rs = None.
Proof.
  intros A. induction rs as [|r rs IH]; intros [x [Hin Hx]]; [destruct Hin|].
  cbn [update_rows].
  destruct (update_rows sch now (model_dump_exclude_unset u) id rs)
    as [[out n]|] eqn:E; [|reflexivity].
  destruct (r_task_id r =? id) eqn:K.
  - now rewrite assign_all_dump, A.
  - destruct Hin as [->|Hin].
    + apply Z.eqb_neq in K. contradiction.
    + assert (X : Some (out, n) = None) by (apply IH; exists x; auto).
      discriminate X.
Qed.

Lemma find_updated_rows now u id id' rs :
  find (fun r => r_task_id r =? id') (updated_rows now u id rs)
  = match find (fun r => r_task_id r =? id') rs with
    | Some r => Some (if r_task_id r =? id then touch now (apply_update u r)
                      else r)
    | None => None
    end.
Proof.
  induction rs as [|r rs IH]; [reflexivity|].
  unfold updated_rows in *. cbn [map find].
  destruct (r_task_id r =? id) eqn:K.
  - cbn [touch apply_update r_task_id].
    destruct (r_task_id r =? id'); [now rewrite K | exact IH].
  - destruct (r_task_id r =? id'); [now rewrite K | exact IH].
Qed.

Lemma execute_log st db : log (snd (execute st db)) = log db ++ [st].
Proof.
  unfold execute.
  destruct (faults db) as [|[] fs]; [|reflexivity|];
    (destruct st as [vs|k|l s|kvs k|k]; cbn [run];
     [ destruct (insert_row _ _ vs); reflexivity
     | reflexivity
     | destruct ((l <? 0) || (s <? 0)); reflexivity
     | destruct (update_rows _ _ kvs k _) as [[rs n]|]; reflexivity
     | reflexivity ]).
Qed.

(** An update with at least one field, on a stored task, over round trips
    that go through: the store accepts it or refuses it. *)
Lemma update_task_accepted id u db r t :
  healthy db ->
  lookup id db = Some r -> Task_of_row r = Some t ->
  model_dump_exclude_unset u <> [] ->
  store_rejects (schema db) u = false ->
  let kvs := model_dump_exclude_unset u in
  let now := clock db + 2 in
  update_task id u db
  = (Return (Task_of_row (touch now (apply_update u r))),
     sent (SelectOne id)
       (set_rows (updated_rows now u id (rows db))
          (sent (Update kvs id) (sent (SelectOne id) db)))).
Proof.
  intros H L T Hne A kvs now.
  unfold update_task, bind.
  rewrite (get_task_found id db r t (healthy_next_ok _ H) L T).
  fold kvs. destruct kvs as [|kv kvs'] eqn:K; [contradiction|].
  rewrite <- K. unfold try_except, bind.
  pose proof (healthy_sent (SelectOne id) db H) as H1.
  rewrite (execute_ok _ _ (healthy_next_ok _ H1)).
  cbn [run]. change (schema (sent _ (sent _ db))) with (schema db).
  change (rows (sent _ (sent _ db))) with (rows db).
  change (clock (sent (Update kvs id) (sent (SelectOne id) db)))
    with (clock db + 1 + 1).
  replace (clock db + 1 + 1) with now by (unfold now; lia).
  unfold kvs at 1. rewrite (update_rows_accept _ _ _ _ _ A).
  cbn [rowcount].
  set (db2 := set_rows _ _).
  assert (G : get_task id db2
              = (Return (Task_of_row (touch now (apply_update u r))),
                 sent (SelectOne id) db2)).
  { rewrite get_task_eq.
    assert (H2 : healthy db2).
    { unfold db2. apply healthy_set_rows. now apply healthy_sent. }
    pose proof (healthy_next_ok _ H2) as N2. unfold next_ok in N2. rewrite N2.
    unfold lookup, db2. cbn [rows set_rows].
    rewrite find_updated_rows. unfold lookup in L. rewrite L.
    apply lookup_stored in L. destruct L as [_ ->].
    rewrite Z.eqb_refl. reflexivity. }
  destruct (_ =? 0); now rewrite G.
Qed.

Lemma update_task_rejected id u db r t :
  healthy db ->
  lookup id db = Some r -> Task_of_row r = Some t ->
  store_rejects (schema db) u = true ->
  update_task id u db
  = (Return None,
     sent (Update (model_dump_exclude_unset u) id) (sent (SelectOne id) db)).
Proof.
  intros H L T A.
  unfold update_task, bind.
  rewrite (get_task_found id db r t (healthy_next_ok _ H) L T).
  destruct (model_dump_exclude_unset u) as [|kv kvs'] eqn:K.
  { apply dump_nil_iff in K. subst u. discriminate A. }
  rewrite <- K. unfold try_except, bind.
  pose proof (healthy_sent (SelectOne id) db H) as H1.
  rewrite (execute_ok _ _ (healthy_next_ok _ H1)).
  cbn [run]. change (schema (sent _ (sent _ db))) with (schema db).
  change (rows (sent _ (sent _ db))) with (rows db).
  rewrite (update_rows_reject _ _ _ _ _ A); [reflexivity|].
  exists r. now apply lookup_stored.
Qed.

(** [update_task] never raises. *)
Lemma update_task_returns id u db :
  exists o db', update_task id u db = (Return o, db').
Proof.
  unfold update_task, bind. rewrite get_task_eq.
  destruct (if hd false (faults db) then None else _) as [t|];
    [|do 2 eexists; reflexivity].
  destruct (model_dump_exclude_unset u) as [|kv kvs];
    [do 2 eexists; reflexivity|].
  unfold try_except, bind.
  match goal with
  | |- context [execute ?s ?d] => destruct (execute s d) as [[c|e] d']
  end; [|do 2 eexists; reflexivity].
  destruct (_ =? 0); rewrite get_task_eq; do 2 eexists; reflexivity.
Qed.

End UpdateFacts.

Section PartialUpdate.

Lemma validate_TaskUpdate_inv p u :
  validate_TaskUpdate p = Some u ->
  nullable_ok title_length_ok (u_title u) = true
  /\ nullable_ok is_TaskStatus (u_status u) = true.
Proof.
  unfold validate_TaskUpdate.
  destruct (_ && _) eqn:B; [|discriminate].
  intros E. inversion E; subst u. simpl. now apply andb_prop in B.
Qed.

Lemma Task_of_row_inv r t :
  Task_of_row r = Some t ->
  r_title r = Some (title t) /\ r_status r = Some (status t)
  /\ title_length_ok (title t) = true /\ is_TaskStatus (status t) = true
  /\ t = mkTask (r_task_id r) (title t) (r_description r) (status t)
                (r_due_date r) (r_created_at r) (r_updated_at r).
Proof.
  unfold Task_of_row.
  destruct (r_title r) as [x|]; [|discriminate].
  destruct (r_status r) as [s|]; [|discriminate].
  destruct (_ && _) eqn:B; [|discriminate].
  intros E. inversion E; subst t. simpl.
  apply andb_prop in B. tauto.
Qed.

Lemma not_rejected_without_null sch u :
  u_title u <> Null -> u_status u <> Null -> store_rejects sch u = false.
Proof.
  unfold store_rejects.
  destruct (u_title u), (u_status u); intros A B; try reflexivity;
    congruence.
Qed.

(** The record a stored row reads back as after an update whose [title]
    and [status], where supplied, are valid values. *)
Lemma Task_of_updated_row now u r t :
  Task_of_row r = Some t ->
  nullable_ok title_length_ok (u_title u) = true ->
  nullable_ok is_TaskStatus (u_status u) = true ->
  u_title u <> Null -> u_status u <> Null ->
  exists t',
    Task_of_row (touch now (apply_update u r)) = Some t'
    /\ task_id t' = task_id t
    /\ Some (title t') = set_field (u_title u) (Some (title t))
    /\ description t' = set_field (u_description u) (description t)
    /\ Some (status t') = set_field (u_status u) (Some (status t))
    /\ due_date t' = set_field (u_due_date u) (due_date t)
    /\ created_at t' = created_at t
    /\ updated_at t' = now.
Proof.
  intros T Vt Vs Nt Ns.
  apply Task_of_row_inv in T.
  destruct T as (Et & Es & Lt & Ls & ->).
  unfold Task_of_row, touch, apply_update.
  cbn [r_title r_status r_task_id r_description r_due_date r_created_at
       r_updated_at].
  rewrite Et, Es.
  destruct (u_title u) as [| |x]; [|congruence|];
    destruct (u_status u) as [| |s]; try congruence;
    cbn [set_field nullable_ok] in *;
    rewrite ?Lt, ?Ls, ?Vt, ?Vs; cbn [andb];
    eexists; (split; [reflexivity|]); cbn; repeat split; reflexivity.
Qed.

End PartialUpdate.

(** C1, as the code has it: for a stored task, a valid update body that
    sets neither [title] nor [status] to null, and round trips that go
    through, [update_task] returns the record that the stored row reads
    back as after the call; in it each supplied field has the supplied
    value, each field left out has its old value, [task_id] and
    [created_at] are as before, and every other row is untouched. *)
Theorem partial_update_touches_supplied_fields
    (id : Z) (db : DB) (r : Row) (t : Task) (p : Payload) (u : TaskUpdate) :
  healthy db ->
  lookup id db = Some r ->
  Task_of_row r = Some t ->
  validate_TaskUpdate p = Some u ->
  u_title u <> Null ->
  u_status u <> Null ->
  exists (r' : Row) (t' : Task) (db' : DB),
    update_task id u db = (Return (Some t'), db')
    /\ lookup id db' = Some r'
    /\ Task_of_row r' = Some t'
    /\ task_id t' = task_id t
    /\ Some (title t') = set_field (u_title u) (Some (title t))
    /\ description t' = set_field (u_description u) (description t)
    /\ Some (status t') = set_field (u_status u) (Some (status t))
    /\ due_date t' = set_field (u_due_date u) (due_date t)
    /\ created_at t' = created_at t
    /\ (forall id', id' <> id -> lookup id' db' = lookup id' db).
Proof.
  intros H L T V Nt Ns.
  destruct (validate_TaskUpdate_inv _ _ V) as [Vt Vs].
  destruct (model_dump_exclude_unset u) as [|kv kvs] eqn:K.
  - (* no field supplied *)
    apply dump_nil_iff in K. subst u.
    exists r, t, (sent (SelectOne id) db).
    split.
    { unfold update_task, bind.
      now rewrite (get_task_found id db r t (healthy_next_ok _ H) L T). }
    repeat split; auto.
  - (* at least one field supplied *)
    assert (Hne : model_dump_exclude_unset u <> []) by congruence.
    pose proof (not_rejected_without_null (schema db) u Nt Ns) as A.
    pose proof (update_task_accepted id u db r t H L T Hne A) as E.
    cbv zeta in E.
    destruct (Task_of_updated_row (clock db + 2) u r t T Vt Vs Nt Ns)
      as (t' & T' & F).
    rewrite T' in E.
    eexists (touch (clock db + 2) (apply_update u r)), t', _.
    split; [exact E|].
    assert (Lk : forall id',
               lookup id' (sent (SelectOne id)
                 (set_rows (updated_rows (clock db + 2) u id (rows db))
                    (sent (Update (model_dump_exclude_unset u) id)
                       (sent (SelectOne id) db))))
               = match lookup id' db with
                 | Some x => Some (if r_task_id x =? id
                                   then touch (clock db + 2) (apply_update u x)
                                   else x)
                 | None => None
                 end).
    { intros id'. unfold lookup. cbn [rows sent set_rows].
      apply find_updated_rows. }
    split.
    { rewrite Lk, L. apply lookup_stored in L. destruct L as [_ ->].
      now rewrite Z.eqb_refl. }
    split; [exact T'|].
    destruct F as (F1 & F2 & F3 & F4 & F5 & F6 & _).
    repeat (split; [assumption|]).
    intros id' Hne'. rewrite Lk.
    destruct (lookup id' db) as [x|] eqn:Lx; [|reflexivity].
    apply lookup_stored in Lx. destruct Lx as [_ Hx].
    replace (r_task_id x =? id) with false; [reflexivity|].
    symmetry. apply Z.eqb_neq. congruence.
Qed.

Lemma partial_update_touches_supplied_fields_witness :
  exists r' t' db',
    update_task 2 set_completed (sample_db strict []) = (Return (Some t'), db')
    /\ lookup 2 db' = Some r'
    /\ Task_of_row r' = Some t'
    /\ status t' = "completed"
    /\ title t' = "review"
    /\ created_at t' = 105.
Proof.
  destruct (partial_update_touches_supplied_fields 2 (sample_db strict [])
              row_2 task_2 (mkPayload Unset Unset (Val "completed") Unset)
              set_completed)
    as (r' & t' & db' & E & L & T & _ & Ft & _ & Fs & _ & Fc & _).
  - constructor.
  - reflexivity.
  - reflexivity.
  - reflexivity.
  - discriminate.
  - discriminate.
  - exists r', t', db'. simpl in Ft, Fs, Fc.
    repeat split; try assumption; congruence.
Defined.

(** C1 as stated fails for a body that sets [title] to null, which is a
    valid body supplying one field of four. Where the table declares the
    column NOT NULL the store refuses the statement, [update_task] returns
    [None] and the row keeps its title. Where it does not, the title
    becomes NULL and the row no longer reads back as a [Task], so
    [update_task] returns [None] as well. The same holds for a body that
    sets [status] to null. *)
Lemma partial_update_null_title_returns_nothing :
  validate_TaskUpdate (mkPayload Null Unset Unset Unset) = Some null_title
  /\ validate_TaskUpdate (mkPayload Unset Unset Null Unset) = Some null_status
  /\ healthy (sample_db strict []) /\ healthy (sample_db lax [])
  /\ lookup 2 (sample_db strict []) = Some row_2
  /\ lookup 2 (sample_db lax []) = Some row_2
  /\ Task_of_row row_2 = Some task_2
  /\ ~ (exists t', fst (update_task 2 null_title (sample_db strict []))
                   = Return (Some t'))
  /\ lookup 2 (snd (update_task 2 null_title (sample_db strict []))) = Some row_2
  /\ ~ (exists t', fst (update_task 2 null_title (sample_db lax []))
                   = Return (Some t'))
  /\ fst (get_task 2 (snd (update_task 2 null_title (sample_db lax []))))
     = Return None
  /\ ~ (exists t', fst (update_task 2 null_status (sample_db strict []))
                   = Return (Some t'))
  /\ ~ (exists t', fst (update_task 2 null_status (sample_db lax []))
                   = Return (Some t')).
Proof.
  split; [reflexivity|].
  split; [reflexivity|].
  split; [constructor|].
  split; [constructor|].
  split; [reflexivity|].
  split; [reflexivity|].
  split; [reflexivity|].
  split; [intros [t' E]; discriminate E|].
  split; [reflexivity|].
  split; [intros [t' E]; discriminate E|].
  split; [reflexivity|].
  split; intros [t' E]; discriminate E.
Qed.

(** C9: an update body whose [title] is null validates, whatever the
    length constraint says about strings; the validated model counts
    [title] as set, [model_dump(exclude_unset=True)] lists it first with
    value [None], and for a task that the existence check finds
    [update_task] sends an UPDATE whose SET clause starts with [title] and
    whose first parameter is [None]. *)
Theorem explicit_null_title_is_sent (id : Z) (db : DB) (p : Payload) (t : Task) :
  p_title p = Null ->
  nullable_ok is_TaskStatus (p_status p) = true ->
  fst (get_task id db) = Return (Some t) ->
  exists (u : TaskUpdate) (rest : list (string * Value)) (after : list Stmt)
         (tail : string),
    validate_TaskUpdate p = Some u
    /\ u_title u = Null
    /\ model_dump_exclude_unset u = ("title", VNone) :: rest
    /\ log (snd (update_task id u db))
       = log db ++ SelectOne id :: Update (("title", VNone) :: rest) id :: after
    /\ values (Update (("title", VNone) :: rest) id)
       = VNone :: map snd rest ++ [VInt id]
    /\ query (Update (("title", VNone) :: rest) id)
       = ("UPDATE tasks SET title = %s" ++ tail)%string.
Proof.
  intros Pt Ps G.
  set (u := mkTaskUpdate (p_title p) (p_description p) (p_status p)
                         (p_due_date p)).
  set (rest := dump_field "description" VStr (u_description u)
               ++ dump_field "status" VStr (u_status u)
               ++ dump_field "due_date" VDate (u_due_date u)).
  assert (V : validate_TaskUpdate p = Some u).
  { unfold validate_TaskUpdate, u. now rewrite Pt, Ps. }
  assert (D : model_dump_exclude_unset u = ("title", VNone) :: rest).
  { unfold model_dump_exclude_unset, rest, u. cbn [u_title].
    now rewrite Pt. }
  assert (Lg : exists after,
             log (snd (update_task id u db))
             = log db ++ SelectOne id
                 :: Update (("title", VNone) :: rest) id :: after).
  { unfold update_task, bind.
    rewrite get_task_eq in G |- *. cbn [fst] in G. inversion G as [G'].
    rewrite G', D. unfold try_except, bind.
    pose proof (execute_log (Update (("title", VNone) :: rest) id)
                  (sent (SelectOne id) db)) as X.
    destruct (execute _ (sent (SelectOne id) db)) as [[c|e] d].
    - cbn [snd] in X.
      exists [SelectOne id].
      destruct (_ =? 0); rewrite get_task_eq; cbn [snd sent log]; rewrite X;
        cbn [sent log]; now rewrite <- !app_assoc.
    - cbn [snd] in X. exists []. unfold ret. cbn [snd]. rewrite X.
      cbn [sent log]. now rewrite <- !app_assoc. }
  destruct Lg as [after Lg].
  exists u, rest, after.
  exists (match rest with
          | [] => ""
          | _ :: _ => ", " ++ set_clause rest
          end ++ " WHERE task_id = %s")%string.
  repeat split; try assumption.
  unfold query, set_clause. cbn [map fst String.concat].
  destruct rest as [|kv rest']; reflexivity.
Qed.

Lemma explicit_null_title_is_sent_witness :
  exists u rest after tail,
    validate_TaskUpdate (mkPayload Null Unset Unset Unset) = Some u
    /\ u_title u = Null
    /\ model_dump_exclude_unset u = ("title", VNone) :: rest
    /\ log (snd (update_task 2 u (sample_db strict [])))
       = log (sample_db strict [])
         ++ SelectOne 2 :: Update (("title", VNone) :: rest) 2 :: after
    /\ values (Update (("title", VNone) :: rest) 2)
       = VNone :: map snd rest ++ [VInt 2]
    /\ query (Update (("title", VNone) :: rest) 2)
       = ("UPDATE tasks SET title = %s" ++ tail)%string.
Proof.
  apply (explicit_null_title_is_sent 2 (sample_db strict [])
           (mkPayload Null Unset Unset Unset) task_2); reflexivity.
Defined.

(* ===================================================================== *)
(** ** The PUT handler *)
(* ===================================================================== *)

(** C8, as the code has it: [update_task] never raises; when it returns a
    record the handler answers 200 with it; when it returns [None] the
    handler reads the task once more and answers 500 if that read returns
    the task and 404 if it returns nothing, be it that no row has the key
    or that the read itself fails. A key that is not stored always gets
    404; a stored task whose update returned [None] gets 500 when the
    second read goes through. *)
Theorem put_responses (id : Z) (u : TaskUpdate) (db : DB) :
  exists (o : option Task) (db1 : DB),
    update_task id u db = (Return o, db1)
    /\ (forall t, o = Some t ->
          update_existing_task id u db
          = (Return (mkResponse 200 (JTask t)), db1))
    /\ (o = None ->
          fst (update_existing_task id u db)
          = Return (match fst (get_task id db1) with
                    | Return (Some _) => could_not_update
                    | _ => not_found
                    end))
    /\ (~ stored id db ->
          fst (update_existing_task id u db) = Return not_found)
    /\ (forall r t,
          o = None -> next_ok db1 ->
          lookup id db1 = Some r -> Task_of_row r = Some t ->
          fst (update_existing_task id u db) = Return could_not_update)
    /\ (o = None -> lookup id db1 = None ->
          fst (update_existing_task id u db) = Return not_found)
    /\ (o = None -> next_fails db1 ->
          fst (update_existing_task id u db) = Return not_found).
Proof.
  destruct (update_task_returns id u db) as (o & db1 & E).
  exists o, db1. split; [exact E|].
  split; [|split; [|split; [|split; [|split]]]].
  - intros t ->. unfold update_existing_task, bind. now rewrite E.
  - intros ->. unfold update_existing_task, bind. rewrite E.
    rewrite get_task_eq. cbn [fst].
    destruct (if hd false (faults db1) then None else _); reflexivity.
  - intros N.
    assert (L : lookup id db = None) by now apply lookup_not_stored.
    unfold update_existing_task, bind.
    assert (U : update_task id u db = (Return None, sent (SelectOne id) db)).
    { unfold update_task, bind. rewrite get_task_none; auto. }
    rewrite U. rewrite get_task_none; [reflexivity|]. now right.
  - intros r t -> Ok L T. unfold update_existing_task, bind. rewrite E.
    now rewrite (get_task_found id db1 r t Ok L T).
  - intros -> L. unfold update_existing_task, bind. rewrite E.
    rewrite get_task_none; [reflexivity|]. now right.
  - intros -> F. unfold update_existing_task, bind. rewrite E.
    rewrite get_task_none; [reflexivity|]. now left.
Qed.

Lemma put_responses_witness :
  fst (update_existing_task 2 set_completed (sample_db strict []))
  = Return (mkResponse 200
              (JTask (mkTask 2 "review" (Some "second pass") "completed"
                             (Some 20) 105 202))).
Proof.
  destruct (put_responses 2 set_completed (sample_db strict []))
    as (o & db1 & E & Ok & _).
  vm_compute in E. inversion E as [[Eo Ed]].
  now rewrite (Ok _ (eq_sym Eo)).
Defined.

(** C8 as stated fails when the store becomes unreachable during the
    request: the task is stored and the existence check finds it, the body
    is valid, the UPDATE raises, the handler's own read fails too, and the
    handler answers 404 and not 500, the task being still stored. *)
Lemma put_on_stored_task_answers_404 :
  validate_TaskUpdate (mkPayload Unset Unset (Val "completed") Unset)
  = Some set_completed
  /\ lookup 2 (sample_db strict [false; true; true]) = Some row_2
  /\ Task_of_row row_2 = Some task_2
  /\ fst (update_task 2 set_completed (sample_db strict [false; true; true]))
     = Return None
  /\ log (snd (update_task 2 set_completed (sample_db strict [false; true; true])))
     = [SelectOne 2; Update [("status", VStr "completed")] 2]
  /\ lookup 2 (snd (update_existing_task 2 set_completed
                      (sample_db strict [false; true; true]))) = Some row_2
  /\ fst (update_existing_task 2 set_completed
            (sample_db strict [false; true; true]))
     = Return not_found
  /\ ~ (fst (update_existing_task 2 set_completed
               (sample_db strict [false; true; true]))
        = Return could_not_update).
Proof.
  repeat (split; [reflexivity|]). discriminate.
Qed.

(* ===================================================================== *)
(** ** List and pagination *)
(* ===================================================================== *)

Section ListFacts.

Abbreviation valid := (fun r : Row => Task_of_row r <> None).

Lemma Forall_firstn {A : Type} (P : A -> Prop) n (l : list A) :
  Forall P l -> Forall P (firstn n l).
Proof.
  intros H. revert n. induction H as [|a l Ha _ IH]; intros [|n]; simpl;
    auto.
Qed.

Lemma Forall_skipn {A : Type} (P : A -> Prop) n (l : list A) :
  Forall P l -> Forall P (skipn n l).
Proof.
  intros H. revert n. induction H as [|a l Ha Hl IH]; intros [|n]; simpl;
    auto.
Qed.

Lemma firstn_then_firstn {A : Type} n m (l : list A) :
  firstn n l ++ firstn m (skipn n l) = firstn (n + m) l.
Proof.
  revert l. induction n as [|n IH]; intros l; [reflexivity|].
  destruct l as [|a l]; simpl.
  - now rewrite firstn_nil.
  - now rewrite IH.
Qed.

Lemma tasks_of_cons r t rs :
  Task_of_row r = Some t -> tasks_of (r :: rs) = t :: tasks_of rs.
Proof. intros E. unfold tasks_of. simpl. now rewrite E. Qed.

Lemma tasks_of_firstn n rs :
  Forall valid rs -> tasks_of (firstn n rs) = firstn n (tasks_of rs).
Proof.
  intros H. revert n. induction H as [|r rs Hr _ IH]; intros [|n];
    try reflexivity.
  destruct (Task_of_row r) as [t|] eqn:E; [|congruence].
  cbn [firstn]. rewrite !(tasks_of_cons r t) by assumption.
  cbn [firstn]. now rewrite IH.
Qed.

Lemma tasks_of_skipn n rs :
  Forall valid rs -> tasks_of (skipn n rs) = skipn n (tasks_of rs).
Proof.
  intros H. revert n. induction H as [|r rs Hr _ IH]; intros [|n];
    try reflexivity.
  destruct (Task_of_row r) as [t|] eqn:E; [|congruence].
  cbn [skipn]. rewrite (tasks_of_cons r t) by assumption.
  cbn [skipn]. apply IH.
Qed.

Lemma tasks_of_keys rs :
  Forall valid rs -> map task_id (tasks_of rs) = map r_task_id rs.
Proof.
  induction 1 as [|r rs Hr _ IH]; [reflexivity|].
  destruct (Task_of_row r) as [t|] eqn:E; [|congruence].
  rewrite (tasks_of_cons r t) by assumption. simpl. rewrite IH.
  apply Task_of_row_inv in E. destruct E as (_ & _ & _ & _ & ->).
  reflexivity.
Qed.

Lemma tasks_of_length rs :
  Forall valid rs -> List.length (tasks_of rs) = List.length rs.
Proof.
  intros H. rewrite <- (length_map task_id), tasks_of_keys by assumption.
  apply length_map.
Qed.

Lemma tasks_of_origin rs t :
  In t (tasks_of rs) -> exists r, In r rs /\ Task_of_row r = Some t.
Proof.
  unfold tasks_of. rewrite in_flat_map. intros [r [Hin Ht]].
  exists r. split; [exact Hin|].
  destruct (Task_of_row r) as [t0|]; simpl in Ht; [|contradiction].
  destruct Ht as [->|[]]. reflexivity.
Qed.

Lemma created_at_desc_transitive :
  Transitive (fun a b => is_true (CreatedAtDesc.leb a b)).
Proof.
  intros a b c. unfold CreatedAtDesc.leb, is_true. rewrite !Z.leb_le. lia.
Qed.

Lemma tasks_of_sorted rs :
  StronglySorted (fun a b => is_true (CreatedAtDesc.leb a b)) rs ->
  StronglySorted newer_first (tasks_of rs).
Proof.
  induction 1 as [|r rs _ IH Hall]; [constructor|].
  destruct (Task_of_row r) as [t|] eqn:E.
  - rewrite (tasks_of_cons r t) by assumption. constructor; [exact IH|].
    apply Forall_forall. intros t' Ht'.
    apply tasks_of_origin in Ht'. destruct Ht' as [r' [Hin E']].
    rewrite Forall_forall in Hall. specialize (Hall r' Hin).
    unfold CreatedAtDesc.leb, is_true in Hall. apply Z.leb_le in Hall.
    apply Task_of_row_inv in E, E'.
    destruct E as (_ & _ & _ & _ & ->), E' as (_ & _ & _ & _ & ->).
    exact Hall.
  - unfold tasks_of in *. simpl. rewrite E. exact IH.
Qed.

Lemma sorted_rows_valid rs :
  Forall valid rs -> Forall valid (order_by_created_at_desc rs).
Proof.
  intros H. eapply Permutation_Forall; [|exact H].
  apply RowSort.Permuted_sort.
Qed.

(** [get_tasks] over a table whose rows all read back, when the round
    trip goes through. *)
Lemma get_tasks_page skip limit db :
  next_ok db -> Forall valid (rows db) -> 0 <= skip -> 0 <= limit ->
  get_tasks skip limit db
  = (Return (firstn (Z.to_nat limit)
               (skipn (Z.to_nat skip) (stored_tasks db))),
     sent (SelectPage limit skip) db).
Proof.
  intros Ok V Hs Hl. rewrite get_tasks_eq. unfold next_ok in Ok. rewrite Ok.
  replace ((limit <? 0) || (skip <? 0)) with false
    by (symmetry; apply orb_false_iff; split; apply Z.ltb_ge; lia).
  pose proof (sorted_rows_valid _ V) as V'.
  unfold page. rewrite Tasks_of_rows_valid
    by (apply Forall_firstn, Forall_skipn; exact V').
  rewrite tasks_of_firstn by (apply Forall_skipn; exact V').
  rewrite tasks_of_skipn by exact V'. reflexivity.
Qed.

End ListFacts.

(** C5: over a table whose rows all read back as tasks, with round trips
    that go through, [skip >= 0] and [limit] in 1..200: the stored records
    in [created_at] descending order are a permutation of the table;
    [get_tasks skip limit] returns that list with [skip] records dropped
    and at most [limit] kept; the next page, [get_tasks (skip + limit)
    limit], continues where the first one stops; from [skip = 0], two pages
    that are large enough for the table are, one after the other, the whole
    ordered list, and with the keys distinct no record is in it twice. *)
Theorem list_pages_in_creation_order (skip limit : Z) (db : DB) :
  healthy db ->
  Forall (fun r => Task_of_row r <> None) (rows db) ->
  0 <= skip ->
  1 <= limit <= 200 ->
  exists (page1 page2 : list Task) (db1 db2 : DB),
    get_tasks skip limit db = (Return page1, db1)
    /\ get_tasks (skip + limit) limit db1 = (Return page2, db2)
    /\ Permutation (tasks_of (rows db)) (stored_tasks db)
    /\ StronglySorted newer_first (stored_tasks db)
    /\ page1 = firstn (Z.to_nat limit)
                 (skipn (Z.to_nat skip) (stored_tasks db))
    /\ page2 = firstn (Z.to_nat limit)
                 (skipn (Z.to_nat skip + Z.to_nat limit) (stored_tasks db))
    /\ page1 ++ page2
       = firstn (Z.to_nat limit + Z.to_nat limit)
           (skipn (Z.to_nat skip) (stored_tasks db))
    /\ (skip = 0 -> Z.of_nat (List.length (rows db)) <= 2 * limit ->
        page1 ++ page2 = stored_tasks db)
    /\ (NoDup (map r_task_id (rows db)) ->
        NoDup (map task_id (page1 ++ page2))).
Proof.
  intros H V Hs Hl.
  pose proof (sorted_rows_valid _ V) as V'.
  pose proof (get_tasks_page skip limit db (healthy_next_ok _ H) V Hs
                ltac:(lia)) as E1.
  pose proof (healthy_sent (SelectPage limit skip) db H) as H1.
  pose proof (get_tasks_page (skip + limit) limit _ (healthy_next_ok _ H1) V
                ltac:(lia) ltac:(lia)) as E2.
  change (stored_tasks (sent (SelectPage limit skip) db))
    with (stored_tasks db) in E2.
  rewrite Z2Nat.inj_add in E2 by lia.
  assert (J : firstn (Z.to_nat limit) (skipn (Z.to_nat skip) (stored_tasks db))
              ++ firstn (Z.to_nat limit)
                   (skipn (Z.to_nat skip + Z.to_nat limit) (stored_tasks db))
              = firstn (Z.to_nat limit + Z.to_nat limit)
                  (skipn (Z.to_nat skip) (stored_tasks db))).
  { rewrite <- firstn_then_firstn. f_equal. f_equal.
    rewrite skipn_skipn. f_equal. lia. }
  do 4 eexists.
  split; [exact E1|]. split; [exact E2|].
  split.
  { unfold stored_tasks, tasks_of. apply Permutation_flat_map.
    apply RowSort.Permuted_sort. }
  split.
  { unfold stored_tasks. apply tasks_of_sorted.
    apply RowSort.StronglySorted_sort. exact created_at_desc_transitive. }
  split; [reflexivity|]. split; [reflexivity|]. split; [exact J|].
  split.
  - intros -> Hlen. rewrite J. change (Z.to_nat 0) with 0%nat.
    cbn [skipn]. apply firstn_all2.
    unfold stored_tasks. rewrite tasks_of_length by exact V'.
    pose proof (Permutation_length (RowSort.Permuted_sort (rows db))) as PL.
    unfold order_by_created_at_desc. lia.
  - intros N. rewrite J.
    assert (Nall : NoDup (map task_id (stored_tasks db))).
    { unfold stored_tasks. rewrite tasks_of_keys by exact V'.
      eapply Permutation_NoDup; [|exact N].
      apply Permutation_map. apply RowSort.Permuted_sort. }
    set (all := stored_tasks db) in *.
    rewrite <- (firstn_skipn (Z.to_nat skip) all) in Nall.
    rewrite map_app in Nall. apply NoDup_app_remove_l in Nall.
    rewrite <- (firstn_skipn (Z.to_nat limit + Z.to_nat limit)
                  (skipn (Z.to_nat skip) all)) in Nall.
    rewrite map_app in Nall. now apply NoDup_app_remove_r in Nall.
Qed.

Lemma list_pages_in_creation_order_witness :
  exists page1 page2 db1 db2,
    get_tasks 0 2 (sample_db strict []) = (Return page1, db1)
    /\ get_tasks 2 2 db1 = (Return page2, db2)
    /\ map task_id page1 = [4; 2]
    /\ map task_id page2 = [3; 1]
    /\ page1 ++ page2 = stored_tasks (sample_db strict []).
Proof.
  destruct (list_pages_in_creation_order 0 2 (sample_db strict []))
    as (page1 & page2 & db1 & db2 & E1 & E2 & _ & _ & P1 & P2 & _ & A & _).
  - constructor.
  - repeat constructor; discriminate.
  - lia.
  - lia.
  - exists page1, page2, db1, db2.
    split; [exact E1|]. split; [exact E2|].
    split; [rewrite P1; reflexivity|].
    split; [rewrite P2; reflexivity|].
    apply A; [reflexivity | simpl; lia].
Defined.

(* ===================================================================== *)
(** ** Validation of the creation body *)
(* ===================================================================== *)

Lemma title_of_length_length n : String.length (title_of_length n) = n.
Proof. induction n as [|n IH]; simpl; congruence. Qed.

(** C6: a creation body whose title has 0 or 256 characters fails
    validation, and the POST endpoint answers without touching the store
    (no statement is sent, the state is the one it started from); a title
    of 1 or 255 characters passes the length check, and a body with such a
    title and an acceptable status validates and reaches [create_task]. *)
Theorem title_length_boundary (p : Payload) (t : string) :
  p_title p = Val t ->
  (String.length t = 0%nat \/ String.length t = 256%nat ->
     title_length_ok t = false
     /\ validate_TaskCreate p = None
     /\ forall db, POST_tasks p db = (Return unprocessable, db))
  /\ (String.length t = 1%nat \/ String.length t = 255%nat ->
     title_length_ok t = true
     /\ (create_status_ok (p_status p) = true ->
         exists task,
           validate_TaskCreate p = Some task
           /\ c_title task = t
           /\ forall db, POST_tasks p db = create_new_task task db)).
Proof.
  intros Pt. split; intros Hlen.
  - assert (B : title_length_ok t = false).
    { unfold title_length_ok. destruct Hlen as [-> | ->]; reflexivity. }
    assert (V : validate_TaskCreate p = None).
    { unfold validate_TaskCreate. now rewrite Pt, B. }
    repeat split; auto.
    intros db. unfold POST_tasks. now rewrite V.
  - assert (B : title_length_ok t = true).
    { unfold title_length_ok. destruct Hlen as [-> | ->]; reflexivity. }
    split; [exact B|].
    intros S.
    assert (V : exists task, validate_TaskCreate p = Some task
                             /\ c_title task = t).
    { unfold validate_TaskCreate. rewrite Pt, B.
      destruct (p_status p) as [| |s]; simpl in S; try discriminate.
      - eexists; split; reflexivity.
      - rewrite S. eexists; split; reflexivity. }
    destruct V as (task & V & Ct). exists task.
    repeat split; auto.
    intros db. unfold POST_tasks. now rewrite V.
Qed.

Lemma title_length_boundary_witness :
  validate_TaskCreate (mkPayload (Val (title_of_length 256)) Unset Unset Unset)
  = None
  /\ validate_TaskCreate (mkPayload (Val "") Unset Unset Unset) = None
  /\ (exists task,
        validate_TaskCreate
          (mkPayload (Val (title_of_length 255)) Unset Unset Unset) = Some task
        /\ c_title task = title_of_length 255)
  /\ (exists task,
        validate_TaskCreate (mkPayload (Val "a") Unset Unset Unset) = Some task
        /\ c_title task = "a").
Proof.
  split.
  { apply (title_length_boundary
             (mkPayload (Val (title_of_length 256)) Unset Unset Unset)
             (title_of_length 256) eq_refl).
    right. apply title_of_length_length. }
  split.
  { apply (title_length_boundary (mkPayload (Val "") Unset Unset Unset)
             "" eq_refl).
    left. reflexivity. }
  split.
  { destruct (title_length_boundary
                (mkPayload (Val (title_of_length 255)) Unset Unset Unset)
                (title_of_length 255) eq_refl) as [_ A].
    destruct A as [_ A]; [right; apply title_of_length_length|].
    destruct (A eq_refl) as (task & V & C & _). exists task. auto. }
  { destruct (title_length_boundary (mkPayload (Val "a") Unset Unset Unset)
                "a" eq_refl) as [_ A].
    destruct A as [_ A]; [left; reflexivity|].
    destruct (A eq_refl) as (task & V & C & _). exists task. auto. }
Defined.

(* ===================================================================== *)
(** ** Create *)
(* ===================================================================== *)

Lemma insert_row_created task id now :
  insert_row id now (insert_values task) = Some (created_row task id now).
Proof.
  destruct task as [t [d|] s [dd|]]; reflexivity.
Qed.

(** C10: when the INSERT goes through and the round trip of the read that
    follows fails, [create_task] returns [None] and the handler answers
    500, while the table has the new row: the key the store assigned, the
    fields of the body, and both timestamps at the time of the insert. *)
Theorem create_can_fail_after_insert
    (task : TaskCreate) (db : DB) (fs : list bool) :
  faults db = false :: true :: fs ->
  exists db' : DB,
    create_task task db = (Return None, db')
    /\ rows db' = rows db ++ [created_row task (next_id db) (clock db + 1)]
    /\ log db' = log db ++ [Insert (insert_values task); SelectOne (next_id db)]
    /\ rows db' <> rows db
    /\ create_new_task task db = (Return could_not_create, db').
Proof.
  intros F.
  assert (E : create_task task db
              = (Return None,
                 sent (SelectOne (next_id db))
                   (mkDB (schema db)
                      (rows db ++ [created_row task (next_id db) (clock db + 1)])
                      (next_id db + 1) (clock db + 1) (true :: fs)
                      (log db ++ [Insert (insert_values task)])))).
  { unfold create_task, try_except, bind.
    fold (insert_values task).
    rewrite execute_ok by (unfold next_ok; now rewrite F).
    cbn [run]. cbn [sent next_id clock rows schema faults log].
    rewrite insert_row_created, F. cbn [tl lastrowid].
    rewrite get_task_none; [reflexivity|]. left. reflexivity. }
  eexists. split; [exact E|].
  split; [reflexivity|].
  split; [cbn [sent log]; now rewrite <- app_assoc|].
  split.
  - cbn [sent rows]. intros X.
    apply (f_equal (@List.length Row)) in X. rewrite length_app in X.
    simpl in X. lia.
  - unfold create_new_task, bind. now rewrite E.
Qed.

Lemma create_can_fail_after_insert_witness :
  exists task db db',
    create_task task db = (Return None, db')
    /\ rows db' <> rows db
    /\ lookup 5 db' = Some (mkRow 5 (Some "x") None (Some "pending") None 201 201).
Proof.
  destruct (create_can_fail_after_insert
              (mkTaskCreate "x" None "pending" None)
              (sample_db strict [false; true]) [] eq_refl)
    as (db' & E & R & _ & N & _).
  exists (mkTaskCreate "x" None "pending" None),
         (sample_db strict [false; true]), db'.
  split; [exact E|]. split; [exact N|].
  unfold lookup. rewrite R. reflexivity.
Defined.

Lemma find_app_none {A : Type} (f : A -> bool) (l l' : list A) :
  find f l = None -> find f (l ++ l') = find f l'.
Proof.
  induction l as [|a l IH]; simpl; [reflexivity|].
  destruct (f a); [discriminate|exact IH].
Qed.

Lemma validate_TaskCreate_inv p task :
  validate_TaskCreate p = Some task ->
  title_length_ok (c_title task) = true /\ is_TaskStatus (c_status task) = true.
Proof.
  unfold validate_TaskCreate.
  destruct (p_title p) as [| |t]; try discriminate.
  destruct (title_length_ok t) eqn:B; [|discriminate].
  destruct (p_status p) as [| |s]; try discriminate.
  - intros E. inversion E. simpl. auto.
  - destruct (is_TaskStatus s) eqn:S; [|discriminate].
    intros E. inversion E. simpl. auto.
Qed.

(** The other way [create_task] ends: over round trips that go through,
    with a key that no row has yet, it returns the record of the new row,
    whose two timestamps are equal. *)
Lemma create_task_stores (p : Payload) (task : TaskCreate) (db : DB) :
  healthy db ->
  ~ stored (next_id db) db ->
  validate_TaskCreate p = Some task ->
  exists db',
    create_task task db
    = (Return (Some (mkTask (next_id db) (c_title task) (c_description task)
                            (c_status task) (c_due_date task)
                            (clock db + 1) (clock db + 1))),
       db')
    /\ rows db' = rows db ++ [created_row task (next_id db) (clock db + 1)].
Proof.
  intros H N V.
  destruct (validate_TaskCreate_inv _ _ V) as [Vt Vs].
  unfold create_task, try_except, bind.
  fold (insert_values task).
  rewrite execute_ok by now apply healthy_next_ok.
  cbn [run]. cbn [sent next_id clock rows schema faults log].
  rewrite insert_row_created. cbn [lastrowid].
  set (db1 := mkDB _ _ _ _ _ _).
  assert (H1 : healthy db1).
  { unfold db1, healthy. cbn [faults].
    unfold healthy in H. destruct (faults db) as [|b fs]; [constructor|].
    now inversion H. }
  rewrite (get_task_found (next_id db) db1
             (created_row task (next_id db) (clock db + 1))
             (mkTask (next_id db) (c_title task) (c_description task)
                     (c_status task) (c_due_date task)
                     (clock db + 1) (clock db + 1))).
  - eexists. split; reflexivity.
  - now apply healthy_next_ok.
  - unfold lookup, db1. cbn [rows].
    rewrite find_app_none by (apply lookup_not_stored; exact N).
    cbn [find created_row r_task_id]. now rewrite Z.eqb_refl.
  - unfold Task_of_row, created_row. cbn [r_title r_status].
    rewrite Vt, Vs. reflexivity.
Qed.

(* ===================================================================== *)
(** ** The connection pool *)
(* ===================================================================== *)

Lemma get_db_pool_cases ps :
  (exists p, pool ps = Some p /\ get_db_pool ps = (Return p, ps))
  \/ (pool ps = None /\ hd false (connect_faults ps) = true
      /\ get_db_pool ps
         = (Raise OperationalError,
            mkProcess None (opened ps) (closed ps) (tl (connect_faults ps))))
  \/ (pool ps = None /\ hd false (connect_faults ps) = false
      /\ get_db_pool ps
         = (Return (mkPool (opened ps) 1 10 true),
            mkProcess (Some (mkPool (opened ps) 1 10 true)) (S (opened ps))
                      (closed ps) (tl (connect_faults ps)))).
Proof.
  unfold get_db_pool, create_pool.
  destruct (pool ps) as [p|] eqn:P; [left; eauto|right].
  destruct (connect_faults ps) as [|[] fs]; simpl; auto.
Qed.

(** X1: a call of [get_db_pool] that returns a pool leaves that pool in the
    global, and every later call returns the same pool without opening
    another one; a pool that had to be opened has [minsize] 1, [maxsize] 10
    and [autocommit] on. *)
Theorem get_db_pool_opens_once (ps ps' : Process) (p : Pool) :
  get_db_pool ps = (Return p, ps') ->
  pool ps' = Some p
  /\ get_db_pool ps' = (Return p, ps')
  /\ fst (startup_event ps') = Return tt
  /\ snd (startup_event ps') = ps'
  /\ (opened ps' <= S (opened ps))%nat
  /\ (pool ps = None ->
      opened ps' = S (opened ps)
      /\ minsize p = 1 /\ maxsize p = 10 /\ autocommit p = true).
Proof.
  intros E.
  assert (P : pool ps' = Some p).
  { destruct (get_db_pool_cases ps) as [(q & Pq & Eq)|[(_ & _ & Eq)|(_ & _ & Eq)]];
      rewrite Eq in E; inversion E; subst; auto. }
  assert (E' : get_db_pool ps' = (Return p, ps')).
  { unfold get_db_pool. now rewrite P. }
  split; [exact P|]. split; [exact E'|].
  split; [unfold startup_event; now rewrite E'|].
  split; [unfold startup_event; now rewrite E'|].
  destruct (get_db_pool_cases ps) as [(q & Pq & Eq)|[(_ & _ & Eq)|(Pn & _ & Eq)]];
    rewrite Eq in E; inversion E; subst.
  - split; [lia|]. intros N. congruence.
  - split; [simpl; lia|]. intros _. simpl. auto.
Qed.

Lemma get_db_pool_opens_once_witness :
  get_db_pool (snd (get_db_pool (mkProcess None 0 [] [])))
  = (Return (mkPool 0 1 10 true), mkProcess (Some (mkPool 0 1 10 true)) 1 [] []).
Proof.
  apply (get_db_pool_opens_once (mkProcess None 0 [] [])
           (mkProcess (Some (mkPool 0 1 10 true)) 1 [] [])
           (mkPool 0 1 10 true)).
  reflexivity.
Defined.

(** X2: when [get_db_pool] raises, there was no pool, none was opened and
    the global is still empty, so [startup_event] raises as well; the next
    call tries again and succeeds if the server can then be reached. *)
Theorem get_db_pool_failure_leaves_no_pool (ps ps' : Process) (e : Exn) :
  get_db_pool ps = (Raise e, ps') ->
  pool ps = None
  /\ pool ps' = None
  /\ opened ps' = opened ps
  /\ startup_event ps = (Raise e, ps')
  /\ (hd false (connect_faults ps') = false ->
      exists p ps'', get_db_pool ps' = (Return p, ps'') /\ pool ps'' = Some p).
Proof.
  intros E.
  destruct (get_db_pool_cases ps) as [(q & Pq & Eq)|[(Pn & F & Eq)|(_ & _ & Eq)]];
    rewrite Eq in E; inversion E; subst.
  split; [exact Pn|]. split; [reflexivity|]. split; [reflexivity|].
  split; [unfold startup_event; now rewrite Eq|].
  intros Ok.
  destruct (get_db_pool_cases
              (mkProcess None (opened ps) (closed ps) (tl (connect_faults ps))))
    as [(q & Pq & _)|[(_ & F' & _)|(_ & _ & Eq')]].
  - discriminate Pq.
  - simpl in F', Ok. congruence.
  - rewrite Eq'. do 2 eexists. split; reflexivity.
Qed.

Lemma get_db_pool_failure_leaves_no_pool_witness :
  pool (snd (get_db_pool (mkProcess None 0 [] [true]))) = None
  /\ startup_event (mkProcess None 0 [] [true])
     = (Raise OperationalError, mkProcess None 0 [] []).
Proof.
  destruct (get_db_pool_failure_leaves_no_pool (mkProcess None 0 [] [true])
              (mkProcess None 0 [] []) OperationalError eq_refl)
    as (_ & P & _ & S & _).
  exact (conj P S).
Defined.

(** X3: [close_db_pool] never raises and leaves the global empty; without a
    pool it changes nothing, so closing twice is closing once; with a pool
    it records that pool as closed, opens none, and the pool that a later
    [get_db_pool] opens is another one. *)
Theorem close_db_pool_resets (ps : Process) :
  fst (close_db_pool ps) = Return tt
  /\ pool (snd (close_db_pool ps)) = None
  /\ opened (snd (close_db_pool ps)) = opened ps
  /\ (pool ps = None -> snd (close_db_pool ps) = ps)
  /\ close_db_pool (snd (close_db_pool ps)) = (Return tt, snd (close_db_pool ps))
  /\ shutdown_event ps = close_db_pool ps
  /\ (forall p, pool ps = Some p ->
        closed (snd (close_db_pool ps)) = closed ps ++ [pool_id p])
  /\ (forall p p' ps', pool ps = Some p -> (pool_id p < opened ps)%nat ->
        get_db_pool (snd (close_db_pool ps)) = (Return p', ps') ->
        pool_id p' <> pool_id p).
Proof.
  unfold shutdown_event, close_db_pool.
  destruct (pool ps) as [q|] eqn:P; cbn [fst snd pool opened closed].
  - repeat split; try discriminate.
    + intros p E. inversion E. reflexivity.
    + intros p p' ps' E Lt G. inversion E; subst q.
      destruct (get_db_pool_cases
                  (mkProcess None (opened ps) (closed ps ++ [pool_id p])
                     (connect_faults ps)))
        as [(x & Px & _)|[(_ & _ & Eq)|(_ & _ & Eq)]].
      * discriminate Px.
      * rewrite Eq in G. discriminate G.
      * rewrite Eq in G. inversion G. simpl. lia.
  - rewrite P. repeat split; try discriminate; auto.
Qed.

(* ===================================================================== *)
(** ** What the repository leaves alone *)
(* ===================================================================== *)

Section FrameFacts.

Lemma assign_frame sch key v r r' :
  assign sch key v r = Some r' ->
  r_task_id r' = r_task_id r /\ r_created_at r' = r_created_at r.
Proof.
  unfold assign.
  destruct (String.eqb key "title");
    [|destruct (String.eqb key "description");
      [|destruct (String.eqb key "status");
        [|destruct (String.eqb key "due_date"); [|discriminate]]]];
    destruct v; try discriminate;
    try destruct (title_not_null sch); try destruct (status_not_null sch);
    try discriminate; intros E; inversion E; auto.
Qed.

Lemma assign_all_frame sch kvs : forall r r',
  assign_all sch kvs r = Some r' ->
  r_task_id r' = r_task_id r /\ r_created_at r' = r_created_at r.
Proof.
  induction kvs as [|[key v] kvs IH]; intros r r' E; simpl in E.
  - inversion E. auto.
  - destruct (assign sch key v r) as [r1|] eqn:A; [|discriminate].
    apply assign_frame in A. apply IH in E.
    destruct A as [A1 A2], E as [E1 E2]. split; congruence.
Qed.

Lemma update_rows_frame sch now kvs id rs : forall rs' n,
  update_rows sch now kvs id rs = Some (rs', n) ->
  Forall2 (update_frame id) rs rs'.
Proof.
  induction rs as [|r rs IH]; intros rs' n E; simpl in E.
  - inversion E. constructor.
  - destruct (update_rows sch now kvs id rs) as [[out m]|]; [|discriminate].
    destruct (r_task_id r =? id) eqn:K.
    + destruct (assign_all sch kvs r) as [r1|] eqn:A; [|discriminate].
      inversion E; subst. constructor; [|eapply IH; reflexivity].
      apply assign_all_frame in A. destruct A as [A1 A2].
      apply Z.eqb_eq in K.
      unfold update_frame, touch. cbn [r_task_id r_created_at].
      repeat split; auto. intros Hne. contradiction.
    + inversion E; subst. constructor; [|eapply IH; reflexivity].
      unfold update_frame. auto.
Qed.

Lemma update_frame_refl id rs : Forall2 (update_frame id) rs rs.
Proof.
  induction rs; constructor; auto. unfold update_frame. auto.
Qed.

Lemma update_frame_find id id' rs rs' :
  Forall2 (update_frame id) rs rs' -> id' <> id ->
  find (fun r => r_task_id r =? id') rs' = find (fun r => r_task_id r =? id') rs.
Proof.
  intros F Hne. induction F as [|r r' rs rs' (K & _ & Same) _ IH];
    [reflexivity|].
  simpl. rewrite K.
  destruct (r_task_id r =? id') eqn:E; [|exact IH].
  apply Z.eqb_eq in E. rewrite Same by congruence. reflexivity.
Qed.

(** The table after [update_task]: as it was, or as the store's UPDATE
    left it. *)
Lemma update_task_rows id u db :
  next_id (snd (update_task id u db)) = next_id db
  /\ schema (snd (update_task id u db)) = schema db
  /\ (rows (snd (update_task id u db)) = rows db
      \/ exists n,
           update_rows (schema db) (clock db + 1 + 1)
             (model_dump_exclude_unset u) id (rows db)
           = Some (rows (snd (update_task id u db)), n)).
Proof.
  unfold update_task, bind. rewrite get_task_eq.
  destruct (if hd false (faults db) then None else _) as [t|];
    [|simpl; auto].
  destruct (model_dump_exclude_unset u) as [|kv kvs] eqn:K; [simpl; auto|].
  rewrite <- K. unfold try_except, bind, execute.
  set (db1 := sent (SelectOne id) db).
  destruct (faults db1) as [|[] fs] eqn:F; [|simpl; auto|];
    (cbn [run];
     change (schema (sent _ db1)) with (schema db);
     change (rows (sent _ db1)) with (rows db);
     change (clock (sent (Update (model_dump_exclude_unset u) id) db1))
       with (clock db + 1 + 1);
     destruct (update_rows _ _ _ _ _) as [[rs n]|] eqn:U;
     [ cbn [rowcount]; destruct (n =? 0); rewrite get_task_eq; cbn [snd];
       (split; [reflexivity|]); (split; [reflexivity|]);
       right; exists n; reflexivity
     | simpl; auto ]).
Qed.

Lemma create_task_rows task db :
  schema (snd (create_task task db)) = schema db
  /\ (rows (snd (create_task task db)) = rows db
      \/ rows (snd (create_task task db))
         = rows db ++ [created_row task (next_id db) (clock db + 1)]).
Proof.
  unfold create_task, try_except, bind, execute.
  fold (insert_values task).
  destruct (faults db) as [|[] fs] eqn:F; [|simpl; auto|];
    (cbn [run]; cbn [sent next_id clock rows schema faults log];
     rewrite insert_row_created; cbn [lastrowid];
     rewrite get_task_eq; cbn [snd sent rows schema]; auto).
Qed.

Lemma create_task_returns task db :
  exists o db', create_task task db = (Return o, db').
Proof.
  unfold create_task, try_except, bind.
  match goal with
  | |- context [execute ?s ?d] => destruct (execute s d) as [[c|e] d']
  end; [|do 2 eexists; reflexivity].
  cbv zeta. rewrite get_task_eq. do 2 eexists; reflexivity.
Qed.

End FrameFacts.

(** X4: whatever the body and whether or not round trips fail,
    [update_task] adds no row and removes none, changes no key and no
    [created_at], leaves every row with another key exactly as it was, and
    does not move the key counter. *)
Theorem update_task_frame (id : Z) (u : TaskUpdate) (db : DB) :
  Forall2 (update_frame id) (rows db) (rows (snd (update_task id u db)))
  /\ List.length (rows (snd (update_task id u db))) = List.length (rows db)
  /\ map r_task_id (rows (snd (update_task id u db))) = map r_task_id (rows db)
  /\ (forall id', id' <> id ->
        lookup id' (snd (update_task id u db)) = lookup id' db)
  /\ next_id (snd (update_task id u db)) = next_id db.
Proof.
  destruct (update_task_rows id u db) as (N & _ & R).
  assert (F : Forall2 (update_frame id) (rows db)
                (rows (snd (update_task id u db)))).
  { destruct R as [-> | [n U]].
    - apply update_frame_refl.
    - eapply update_rows_frame. exact U. }
  split; [exact F|].
  split; [symmetry; eapply Forall2_length; exact F|].
  split.
  { clear R N. induction F as [|r r' rs rs' (K & _) _ IH]; [reflexivity|].
    simpl. now rewrite K, IH. }
  split; [|exact N].
  intros id' Hne. unfold lookup. now apply (update_frame_find id).
Qed.


(** X6: once [delete_task] has returned [True] for a key, and until a row
    with that key is stored again, [get_task] returns [None], every
    [update_task] returns [None] and a second [delete_task] returns
    [False], with the handlers answering 404. *)
Theorem delete_then_not_found (id : Z) (db : DB) :
  fst (delete_task id db) = Return true ->
  forall db', rows db' = rows (snd (delete_task id db)) ->
    fst (get_task id db') = Return None
    /\ (forall u, fst (update_task id u db') = Return None)
    /\ fst (delete_task id db') = Return false
    /\ fst (read_task id db') = Return not_found
    /\ fst (delete_existing_task id db') = Return not_found.
Proof.
  intros D db' R.
  assert (N : ~ stored id db').
  { intros [r [Hin Heq]]. apply (deleted_not_stored id db D).
    exists r. rewrite <- R. auto. }
  pose proof (lookup_not_stored _ _ N) as L.
  assert (G : get_task id db' = (Return None, sent (SelectOne id) db')).
  { apply get_task_none. now right. }
  assert (Dl : fst (delete_task id db') = Return false).
  { rewrite delete_task_eq. destruct (hd false (faults db')); [reflexivity|].
    cbv zeta. rewrite (kept_all _ _ N), Z.sub_diag. reflexivity. }
  split; [now rewrite G|].
  split; [intros u; unfold update_task, bind; now rewrite G|].
  split; [exact Dl|].
  split; [unfold read_task, bind; now rewrite G|].
  unfold delete_existing_task, bind.
  destruct (delete_task id db') as [[b|e] d]; simpl in Dl; inversion Dl.
  reflexivity.
Qed.

Lemma delete_then_not_found_witness :
  fst (delete_task 2 (snd (delete_task 2 (sample_db strict []))))
  = Return false
  /\ fst (get_task 2 (snd (delete_task 2 (sample_db strict [])))) = Return None.
Proof.
  destruct (delete_then_not_found 2 (sample_db strict []) eq_refl
              (snd (delete_task 2 (sample_db strict []))) eq_refl)
    as (G & _ & D & _).
  exact (conj D G).
Defined.

(* ===================================================================== *)
(** ** Validated requests and readable rows *)
(* ===================================================================== *)

Section ReadableFacts.

Lemma created_row_readable p task id now :
  validate_TaskCreate p = Some task ->
  Task_of_row (created_row task id now) <> None.
Proof.
  intros V. destruct (validate_TaskCreate_inv _ _ V) as [Vt Vs].
  unfold Task_of_row, created_row. cbn [r_title r_status].
  rewrite Vt, Vs. discriminate.
Qed.

Lemma rejected_or_not_null sch u :
  (title_not_null sch = true \/ u_title u <> Null) ->
  (status_not_null sch = true \/ u_status u <> Null) ->
  store_rejects sch u = false ->
  u_title u <> Null /\ u_status u <> Null.
Proof.
  unfold store_rejects. intros [A|A] [B|B] R;
    destruct (u_title u), (u_status u); try rewrite A in R;
    try rewrite B in R; simpl in R; try discriminate R;
    split; try discriminate; try assumption;
    destruct (title_not_null sch); discriminate R.
Qed.

Lemma update_rows_readable sch now u id rs : forall rs' n,
  nullable_ok title_length_ok (u_title u) = true ->
  nullable_ok is_TaskStatus (u_status u) = true ->
  (title_not_null sch = true \/ u_title u <> Null) ->
  (status_not_null sch = true \/ u_status u <> Null) ->
  Forall (fun r => Task_of_row r <> None) rs ->
  update_rows sch now (model_dump_exclude_unset u) id rs = Some (rs', n) ->
  Forall (fun r => Task_of_row r <> None) rs'.
Proof.
  intros rs' n Vt Vs Ht Hs V. revert rs' n.
  induction V as [|r rs Hr _ IH]; intros rs' n E; simpl in E.
  - inversion E. constructor.
  - destruct (update_rows sch now (model_dump_exclude_unset u) id rs)
      as [[out m]|]; [|discriminate].
    destruct (r_task_id r =? id).
    + rewrite assign_all_dump in E.
      destruct (store_rejects sch u) eqn:R; [discriminate|].
      inversion E; subst. constructor; [|eapply IH; reflexivity].
      destruct (rejected_or_not_null sch u Ht Hs R) as [Nt Ns].
      destruct (Task_of_row r) as [t|] eqn:T; [|congruence].
      destruct (Task_of_updated_row now u r t T Vt Vs Nt Ns) as (t' & T' & _).
      congruence.
    + inversion E; subst. constructor; [exact Hr|eapply IH; reflexivity].
Qed.

End ReadableFacts.

(** X7: a table whose rows all read back as tasks stays so under
    [create_task] with a validated body, under [delete_task], and under
    [update_task] with a validated body provided each of [title] and
    [status] is either declared NOT NULL or not set to null by the body;
    this holds whether or not round trips fail. *)
Theorem validated_requests_keep_rows_readable
    (id : Z) (pc pu : Payload) (task : TaskCreate) (u : TaskUpdate) (db : DB) :
  readable db ->
  validate_TaskCreate pc = Some task ->
  validate_TaskUpdate pu = Some u ->
  readable (snd (create_task task db))
  /\ readable (snd (delete_task id db))
  /\ ((title_not_null (schema db) = true \/ u_title u <> Null) ->
      (status_not_null (schema db) = true \/ u_status u <> Null) ->
      readable (snd (update_task id u db))).
Proof.
  unfold readable. intros R Vc Vu.
  split; [|split].
  - destruct (create_task_rows task db) as (_ & [-> | ->]); [exact R|].
    apply Forall_app. split; [exact R|].
    constructor; [|constructor]. eapply created_row_readable. exact Vc.
  - rewrite delete_task_eq. destruct (hd false (faults db)); [exact R|].
    cbn [snd rows set_rows]. rewrite Forall_forall in *.
    intros r Hin. apply filter_In in Hin. apply R. tauto.
  - intros Ht Hs.
    destruct (validate_TaskUpdate_inv _ _ Vu) as [Vt Vs].
    destruct (update_task_rows id u db) as (_ & _ & [-> | [n U]]);
      [exact R|].
    eapply update_rows_readable; eauto.
Qed.

Lemma validated_requests_keep_rows_readable_witness :
  readable (snd (create_task (mkTaskCreate "x" None "pending" None)
                   (sample_db strict [])))
  /\ readable (snd (update_task 2 null_title (sample_db strict []))).
Proof.
  destruct (validated_requests_keep_rows_readable 2
              (mkPayload (Val "x") Unset Unset Unset)
              (mkPayload Null Unset Unset Unset)
              (mkTaskCreate "x" None "pending" None) null_title
              (sample_db strict []))
    as (C & _ & U).
  - repeat constructor; discriminate.
  - reflexivity.
  - reflexivity.
  - split; [exact C|]. apply U; left; reflexivity.
Defined.

(* ===================================================================== *)
(** ** What the handlers answer *)
(* ===================================================================== *)

(** X8: no handler lets an exception of the store through. Each returns a
    response, whatever the request and whether or not round trips fail,
    and its status code is 201 or 500 for create, 200 for the list, 200 or
    404 for get-one, 200, 404 or 500 for update, 204 or 404 for delete. *)
Theorem handlers_always_answer
    (id skip limit : Z) (task : TaskCreate) (u : TaskUpdate) (db : DB) :
  (exists r db', create_new_task task db = (Return r, db')
                 /\ (status_code r = 201 \/ status_code r = 500))
  /\ (exists r db', read_tasks skip limit db = (Return r, db')
                    /\ status_code r = 200)
  /\ (exists r db', read_task id db = (Return r, db')
                    /\ (status_code r = 200 \/ status_code r = 404))
  /\ (exists r db', update_existing_task id u db = (Return r, db')
                    /\ (status_code r = 200 \/ status_code r = 404
                        \/ status_code r = 500))
  /\ (exists r db', delete_existing_task id db = (Return r, db')
                    /\ (status_code r = 204 \/ status_code r = 404)).
Proof.
  split; [|split; [|split; [|split]]].
  - unfold create_new_task, bind.
    destruct (create_task_returns task db) as ([t|] & d & ->);
      do 2 eexists; (split; [reflexivity|]); simpl; auto.
  - unfold read_tasks, bind. rewrite get_tasks_eq.
    do 2 eexists; (split; [reflexivity|]); reflexivity.
  - unfold read_task, bind. rewrite get_task_eq.
    destruct (if hd false (faults db) then None else _);
      do 2 eexists; (split; [reflexivity|]); simpl; auto.
  - unfold update_existing_task, bind.
    destruct (update_task_returns id u db) as ([t|] & d & ->).
    + do 2 eexists; (split; [reflexivity|]); simpl; auto.
    + rewrite get_task_eq.
      destruct (if hd false (faults d) then None else _);
        do 2 eexists; (split; [reflexivity|]); simpl; auto.
  - unfold delete_existing_task, bind. rewrite delete_task_eq.
    destruct (hd false (faults db)).
    + do 2 eexists; (split; [reflexivity|]); simpl; auto.
    + cbv zeta. destruct (_ >? 0);
        do 2 eexists; (split; [reflexivity|]); simpl; auto.
Qed.

(* ===================================================================== *)
(** ** Updates that go through *)
(* ===================================================================== *)

Section UpdateComposition.

Lemma set_field_twice {A : Type} (f : Field A) (x y z : A) :
  Some y = set_field f (Some x) -> Some z = set_field f (Some y) -> z = y.
Proof. destruct f; simpl; congruence. Qed.

Lemma set_field_option_twice {A : Type} (f : Field A) (x y z : option A) :
  y = set_field f x -> z = set_field f y -> z = y.
Proof. destruct f; simpl; congruence. Qed.

(** An update of a stored, readable task with valid values and no null
    for [title] or [status], over round trips that go through. *)
Lemma update_task_post id db r t u :
  healthy db ->
  lookup id db = Some r -> Task_of_row r = Some t ->
  nullable_ok title_length_ok (u_title u) = true ->
  nullable_ok is_TaskStatus (u_status u) = true ->
  u_title u <> Null -> u_status u <> Null ->
  exists r' t' db',
    update_task id u db = (Return (Some t'), db')
    /\ healthy db'
    /\ lookup id db' = Some r'
    /\ Task_of_row r' = Some t'
    /\ task_id t' = task_id t
    /\ Some (title t') = set_field (u_title u) (Some (title t))
    /\ description t' = set_field (u_description u) (description t)
    /\ Some (status t') = set_field (u_status u) (Some (status t))
    /\ due_date t' = set_field (u_due_date u) (due_date t)
    /\ created_at t' = created_at t.
Proof.
  intros H L T Vt Vs Nt Ns.
  destruct (model_dump_exclude_unset u) as [|kv kvs] eqn:K.
  - apply dump_nil_iff in K. subst u.
    exists r, t, (sent (SelectOne id) db).
    split.
    { unfold update_task, bind.
      now rewrite (get_task_found id db r t (healthy_next_ok _ H) L T). }
    split; [now apply healthy_sent|].
    repeat split; auto.
  - assert (Hne : model_dump_exclude_unset u <> []) by congruence.
    pose proof (not_rejected_without_null (schema db) u Nt Ns) as A.
    pose proof (update_task_accepted id u db r t H L T Hne A) as E.
    cbv zeta in E.
    destruct (Task_of_updated_row (clock db + 2) u r t T Vt Vs Nt Ns)
      as (t' & T' & F1 & F2 & F3 & F4 & F5 & F6 & _).
    rewrite T' in E.
    eexists (touch (clock db + 2) (apply_update u r)), t', _.
    split; [exact E|].
    split.
    { apply healthy_sent, healthy_set_rows. now do 2 apply healthy_sent. }
    split.
    { unfold lookup. cbn [rows sent set_rows]. rewrite find_updated_rows.
      unfold lookup in L. rewrite L.
      apply lookup_stored in L. destruct L as [_ ->].
      now rewrite Z.eqb_refl. }
    repeat (split; [assumption|]). assumption.
Qed.

End UpdateComposition.

(** X9: after an update that returned a record, over round trips that go
    through, [get_task] returns that same record: the answer of the PUT
    is what a GET then shows. *)
Theorem update_then_get_agrees
    (id : Z) (db : DB) (r : Row) (t : Task) (p : Payload) (u : TaskUpdate) :
  healthy db ->
  lookup id db = Some r ->
  Task_of_row r = Some t ->
  validate_TaskUpdate p = Some u ->
  u_title u <> Null ->
  u_status u <> Null ->
  exists (t' : Task) (db' : DB),
    update_task id u db = (Return (Some t'), db')
    /\ fst (get_task id db') = Return (Some t')
    /\ fst (update_existing_task id u db) = Return (mkResponse 200 (JTask t'))
    /\ fst (read_task id db') = Return (mkResponse 200 (JTask t')).
Proof.
  intros H L T V Nt Ns.
  destruct (validate_TaskUpdate_inv _ _ V) as [Vt Vs].
  destruct (update_task_post id db r t u H L T Vt Vs Nt Ns)
    as (r' & t' & db' & E & H' & L' & T' & _).
  exists t', db'.
  pose proof (get_task_found id db' r' t' (healthy_next_ok _ H') L' T') as G.
  split; [exact E|].
  split; [now rewrite G|].
  split.
  - unfold update_existing_task, bind. now rewrite E.
  - unfold read_task, bind. now rewrite G.
Qed.

Lemma update_then_get_agrees_witness :
  exists t' db',
    update_task 2 set_completed (sample_db strict []) = (Return (Some t'), db')
    /\ fst (get_task 2 db') = Return (Some t').
Proof.
  destruct (update_then_get_agrees 2 (sample_db strict []) row_2 task_2
              (mkPayload Unset Unset (Val "completed") Unset) set_completed)
    as (t' & db' & E & G & _).
  - constructor.
  - reflexivity.
  - reflexivity.
  - reflexivity.
  - discriminate.
  - discriminate.
  - exists t', db'. exact (conj E G).
Defined.

(** X10: sending the same update twice, over round trips that go through,
    gives twice a record, and the second differs from the first in
    [updated_at] at most. *)
Theorem update_twice_same_fields
    (id : Z) (db : DB) (r : Row) (t : Task) (p : Payload) (u : TaskUpdate) :
  healthy db ->
  lookup id db = Some r ->
  Task_of_row r = Some t ->
  validate_TaskUpdate p = Some u ->
  u_title u <> Null ->
  u_status u <> Null ->
  exists (t1 t2 : Task) (db1 db2 : DB),
    update_task id u db = (Return (Some t1), db1)
    /\ update_task id u db1 = (Return (Some t2), db2)
    /\ task_id t2 = task_id t1
    /\ title t2 = title t1
    /\ description t2 = description t1
    /\ status t2 = status t1
    /\ due_date t2 = due_date t1
    /\ created_at t2 = created_at t1.
Proof.
  intros H L T V Nt Ns.
  destruct (validate_TaskUpdate_inv _ _ V) as [Vt Vs].
  destruct (update_task_post id db r t u H L T Vt Vs Nt Ns)
    as (r1 & t1 & db1 & E1 & H1 & L1 & T1 & A1 & A2 & A3 & A4 & A5 & A6).
  destruct (update_task_post id db1 r1 t1 u H1 L1 T1 Vt Vs Nt Ns)
    as (r2 & t2 & db2 & E2 & _ & _ & _ & B1 & B2 & B3 & B4 & B5 & B6).
  exists t1, t2, db1, db2.
  split; [exact E1|]. split; [exact E2|].
  split; [exact B1|].
  split; [exact (set_field_twice _ _ _ _ A2 B2)|].
  split; [exact (set_field_option_twice _ _ _ _ A3 B3)|].
  split; [exact (set_field_twice _ _ _ _ A4 B4)|].
  split; [exact (set_field_option_twice _ _ _ _ A5 B5)|exact B6].
Qed.

Lemma update_twice_same_fields_witness :
  exists t1 t2 db1 db2,
    update_task 2 set_completed (sample_db strict []) = (Return (Some t1), db1)
    /\ update_task 2 set_completed db1 = (Return (Some t2), db2)
    /\ status t2 = status t1.
Proof.
  destruct (update_twice_same_fields 2 (sample_db strict []) row_2 task_2
              (mkPayload Unset Unset (Val "completed") Unset) set_completed)
    as (t1 & t2 & db1 & db2 & E1 & E2 & _ & _ & _ & S & _).
  - constructor.
  - reflexivity.
  - reflexivity.
  - reflexivity.
  - discriminate.
  - discriminate.
  - exists t1, t2, db1, db2. auto.
Defined.

(* ===================================================================== *)
(** ** What the list returns *)
(* ===================================================================== *)

Section PageFacts.

Lemma Tasks_of_rows_some rs : forall ts,
  Tasks_of_rows rs = Some ts ->
  ts = tasks_of rs /\ List.length ts = List.length rs.
Proof.
  induction rs as [|r rs IH]; intros ts E; simpl in E.
  - inversion E. auto.
  - destruct (Task_of_row r) as [t|] eqn:T; [|discriminate].
    destruct (Tasks_of_rows rs) as [ts'|]; [|discriminate].
    inversion E; subst. destruct (IH ts' eq_refl) as [-> Len].
    rewrite (tasks_of_cons r t) by assumption. simpl. auto.
Qed.

Lemma Tasks_of_rows_unreadable rs r :
  In r rs -> Task_of_row r = None -> Tasks_of_rows rs = None.
Proof.
  induction rs as [|a rs IH]; intros Hin T; [destruct Hin|].
  simpl. destruct Hin as [->|Hin].
  - now rewrite T.
  - destruct (Task_of_row a); [|reflexivity]. now rewrite IH.
Qed.

Lemma In_firstn {A : Type} n (l : list A) x : In x (firstn n l) -> In x l.
Proof.
  intros H. rewrite <- (firstn_skipn n l). apply in_or_app. now left.
Qed.

Lemma In_skipn {A : Type} n (l : list A) x : In x (skipn n l) -> In x l.
Proof.
  intros H. rewrite <- (firstn_skipn n l). apply in_or_app. now right.
Qed.

Lemma In_page skip limit db r : In r (page skip limit db) -> In r (rows db).
Proof.
  unfold page, order_by_created_at_desc. intros H.
  apply In_firstn, In_skipn in H.
  eapply Permutation_in; [|exact H].
  apply Permutation_sym, RowSort.Permuted_sort.
Qed.

Lemma StronglySorted_skipn {A : Type} (R : A -> A -> Prop) n (l : list A) :
  StronglySorted R l -> StronglySorted R (skipn n l).
Proof.
  intros H. revert n. induction H as [|a l Hl IH Ha]; intros [|n]; simpl;
    auto; constructor; auto.
Qed.

Lemma StronglySorted_firstn {A : Type} (R : A -> A -> Prop) n (l : list A) :
  StronglySorted R l -> StronglySorted R (firstn n l).
Proof.
  intros H. revert n. induction H as [|a l Hl IH Ha]; intros [|n]; simpl;
    try constructor; auto.
  now apply Forall_firstn.
Qed.

Lemma page_length skip limit db :
  0 <= limit -> Z.of_nat (List.length (page skip limit db)) <= limit.
Proof.
  intros H. unfold page. rewrite length_firstn. lia.
Qed.

(** The list that [get_tasks] returns: empty, or the records of the
    selected page. *)
Lemma get_tasks_result skip limit db :
  exists ts,
    fst (get_tasks skip limit db) = Return ts
    /\ (ts = []
        \/ (0 <= limit /\ 0 <= skip
            /\ Tasks_of_rows (page skip limit db) = Some ts)).
Proof.
  rewrite get_tasks_eq. cbn [fst].
  destruct (hd false (faults db)); [eauto|].
  destruct ((limit <? 0) || (skip <? 0)) eqn:B; [eauto|].
  apply orb_false_iff in B. destruct B as [B1 B2].
  apply Z.ltb_ge in B1, B2.
  destruct (Tasks_of_rows (page skip limit db)) as [ts|] eqn:T; [|eauto].
  exists ts. split; [reflexivity|]. right. auto.
Qed.

Lemma get_tasks_length skip limit db ts :
  fst (get_tasks skip limit db) = Return ts ->
  Z.of_nat (List.length ts) <= Z.max 0 limit.
Proof.
  intros E. destruct (get_tasks_result skip limit db) as (ts' & E' & C).
  rewrite E' in E. inversion E; subst ts'.
  destruct C as [-> | (Hl & _ & T)]; [simpl; lia|].
  apply Tasks_of_rows_some in T. destruct T as [_ ->].
  pose proof (page_length skip limit db Hl). lia.
Qed.

End PageFacts.

(** X11: whatever the state of the store, [get_tasks] returns a list of at
    most [limit] records (none for a negative [limit]), each of them the
    record of a stored row, in [created_at] descending order. *)
Theorem get_tasks_returns_stored_records (skip limit : Z) (db : DB) :
  exists ts : list Task,
    fst (get_tasks skip limit db) = Return ts
    /\ Z.of_nat (List.length ts) <= Z.max 0 limit
    /\ (forall t, In t ts ->
          exists r, In r (rows db) /\ Task_of_row r = Some t)
    /\ StronglySorted newer_first ts.
Proof.
  destruct (get_tasks_result skip limit db) as (ts & E & C).
  exists ts. split; [exact E|].
  split; [now apply (get_tasks_length skip limit db)|].
  destruct C as [-> | (_ & _ & T)].
  - split; [intros t []|constructor].
  - apply Tasks_of_rows_some in T. destruct T as [-> _].
    split.
    + intros t Ht. apply tasks_of_origin in Ht. destruct Ht as (r & Hin & Tr).
      exists r. split; [|exact Tr]. now apply (In_page skip limit db).
    + apply tasks_of_sorted. unfold page.
      apply StronglySorted_firstn, StronglySorted_skipn.
      apply RowSort.StronglySorted_sort. exact created_at_desc_transitive.
Qed.

(** X12: when one row of the selected page does not read back as a task,
    [get_tasks] returns the empty list, not the records of the other rows
    of the page: the exception raised in the loop discards what the loop
    had collected. *)
Theorem unreadable_row_empties_the_page (skip limit : Z) (db : DB) (r : Row) :
  In r (page skip limit db) ->
  Task_of_row r = None ->
  fst (get_tasks skip limit db) = Return []
  /\ fst (read_tasks skip limit db) = Return (mkResponse 200 (JTasks [])).
Proof.
  intros Hin T.
  assert (E : fst (get_tasks skip limit db) = Return []).
  { rewrite get_tasks_eq. cbn [fst].
    destruct (hd false (faults db)); [reflexivity|].
    destruct ((limit <? 0) || (skip <? 0)); [reflexivity|].
    now rewrite (Tasks_of_rows_unreadable _ r Hin T). }
  split; [exact E|].
  unfold read_tasks, bind.
  destruct (get_tasks skip limit db) as [[ts|e] d]; simpl in E; inversion E.
  reflexivity.
Qed.

Lemma unreadable_row_empties_the_page_witness :
  fst (get_tasks 0 100 (snd (update_task 2 null_title (sample_db lax []))))
  = Return []
  /\ List.length (rows (snd (update_task 2 null_title (sample_db lax []))))
     = 4%nat.
Proof.
  split; [|reflexivity].
  apply (unreadable_row_empties_the_page 0 100
           (snd (update_task 2 null_title (sample_db lax [])))
           (mkRow 2 None (Some "second pass") (Some "in_progress") (Some 20)
                  105 202)).
  - vm_compute. auto.
  - reflexivity.
Defined.

(** X13: the list endpoint answers 422 without sending a statement when
    [skip] is negative or [limit] is outside 1..200, and otherwise answers
    200 with at most [limit], hence at most 200, records; [skip] defaults
    to 0 and [limit] to 100. *)
Theorem list_endpoint_bounds (skip limit : option Z) (db : DB) :
  let s := match skip with Some s => s | None => 0 end in
  let l := match limit with Some l => l | None => 100 end in
  (s < 0 \/ l < 1 \/ 200 < l -> GET_tasks skip limit db = (Return unprocessable, db))
  /\ (0 <= s /\ 1 <= l <= 200 ->
      exists ts,
        GET_tasks skip limit db
        = (Return (mkResponse 200 (JTasks ts)), sent (SelectPage l s) db)
        /\ Z.of_nat (List.length ts) <= l
        /\ Z.of_nat (List.length ts) <= 200).
Proof.
  cbv zeta. unfold GET_tasks.
  set (s := match skip with Some s => s | None => 0 end).
  set (l := match limit with Some l => l | None => 100 end).
  split.
  - intros H.
    replace ((s >=? 0) && (l >=? 1) && (l <=? 200)) with false; [reflexivity|].
    symmetry. rewrite !andb_false_iff, !Z.geb_leb, !Z.leb_gt. lia.
  - intros [Hs Hl].
    replace ((s >=? 0) && (l >=? 1) && (l <=? 200)) with true
      by (symmetry; rewrite !andb_true_iff, !Z.geb_leb, !Z.leb_le; lia).
    destruct (get_tasks_result s l db) as (ts & E & _).
    pose proof (get_tasks_length s l db ts E) as Len.
    exists ts. split.
    + unfold read_tasks, bind.
      pose proof (get_tasks_eq s l db) as Q.
      destruct (get_tasks s l db) as [[ts'|e] d]; simpl in E; inversion E.
      subst ts'. inversion Q. reflexivity.
    + lia.
Qed.

Lemma list_endpoint_bounds_witness :
  GET_tasks (Some 0) (Some 201) (sample_db strict [])
  = (Return unprocessable, sample_db strict [])
  /\ exists ts,
       GET_tasks None None (sample_db strict [])
       = (Return (mkResponse 200 (JTasks ts)),
          sent (SelectPage 100 0) (sample_db strict [])).
Proof.
  split.
  - apply (list_endpoint_bounds (Some 0) (Some 201) (sample_db strict [])).
    lia.
  - destruct (list_endpoint_bounds None None (sample_db strict []))
      as [_ A].
    destruct A as (ts & E & _); [lia|]. exists ts. exact E.
Defined.

(* ===================================================================== *)
(** ** The statements an update sends *)
(* ===================================================================== *)

Lemma dump_keys u :
  Forall (fun key => In key settable_columns)
         (map fst (model_dump_exclude_unset u))
  /\ NoDup (map fst (model_dump_exclude_unset u)).
Proof.
  destruct u as [[| |t] [| |d] [| |s] [| |dd]]; split;
    cbn [model_dump_exclude_unset dump_field map fst app
         u_title u_description u_status u_due_date];
    repeat first
      [ apply Forall_nil
      | apply NoDup_nil
      | apply Forall_cons; [simpl; auto 6|]
      | apply NoDup_cons;
        [ simpl; intros H;
          repeat (destruct H as [H|H]; [discriminate H|]); exact H |] ].
Qed.

Lemma dump_placeholders u id :
  count_placeholders (query (Update (model_dump_exclude_unset u) id))
  = List.length (values (Update (model_dump_exclude_unset u) id)).
Proof.
  destruct u as [[| |t] [| |d] [| |s] [| |dd]]; reflexivity.
Qed.

(** X14: [update_task] first sends the existence check. After it, it sends
    nothing more, or one UPDATE, or one UPDATE and one re-read; the UPDATE
    is sent only for a body that sets a field, it names each set field
    once and only columns of the four that can be set, and its text has as
    many placeholders as it has parameters. *)
Theorem update_task_statements (id : Z) (u : TaskUpdate) (db : DB) :
  let update_data := model_dump_exclude_unset u in
  exists l : list Stmt,
    log (snd (update_task id u db)) = log db ++ SelectOne id :: l
    /\ (l = []
        \/ (update_data <> []
            /\ (l = [Update update_data id]
                \/ l = [Update update_data id; SelectOne id])))
    /\ Forall (fun key => In key settable_columns) (map fst update_data)
    /\ NoDup (map fst update_data)
    /\ count_placeholders (query (Update update_data id))
       = List.length (values (Update update_data id)).
Proof.
  cbv zeta.
  assert (L : exists l,
             log (snd (update_task id u db)) = log db ++ SelectOne id :: l
             /\ (l = []
                 \/ (model_dump_exclude_unset u <> []
                     /\ (l = [Update (model_dump_exclude_unset u) id]
                         \/ l = [Update (model_dump_exclude_unset u) id;
                                 SelectOne id])))).
  { unfold update_task, bind. rewrite get_task_eq.
    destruct (if hd false (faults db) then None else _) as [t|];
      [|exists []; split; [reflexivity|now left]].
    destruct (model_dump_exclude_unset u) as [|kv kvs] eqn:K;
      [exists []; split; [reflexivity|now left]|].
    unfold try_except, bind.
    pose proof (execute_log (Update (kv :: kvs) id) (sent (SelectOne id) db))
      as X.
    destruct (execute (Update (kv :: kvs) id) (sent (SelectOne id) db))
      as [[c|e] d]; cbn [snd] in X.
    - exists [Update (kv :: kvs) id; SelectOne id].
      split; [|right; split; [discriminate|now right]].
      destruct (_ =? 0); rewrite get_task_eq; cbn [snd sent log]; rewrite X;
        cbn [sent log]; now rewrite <- !app_assoc.
    - exists [Update (kv :: kvs) id].
      split; [|right; split; [discriminate|now left]].
      unfold ret. cbn [snd]. rewrite X. cbn [sent log].
      now rewrite <- !app_assoc. }
  destruct L as (l & L1 & L2). exists l.
  split; [exact L1|]. split; [exact L2|].
  destruct (dump_keys u) as [K1 K2].
  split; [exact K1|]. split; [exact K2|apply dump_placeholders].
Qed.

(* ===================================================================== *)
(** ** Create and read back *)
(* ===================================================================== *)

Lemma validate_TaskCreate_fields p task :
  validate_TaskCreate p = Some task ->
  p_title p = Val (c_title task)
  /\ c_description task = optional (p_description p)
  /\ c_status task = requested_status p
  /\ c_due_date task = optional (p_due_date p).
Proof.
  unfold validate_TaskCreate, requested_status.
  destruct (p_title p) as [| |t]; try discriminate.
  destruct (title_length_ok t); [|discriminate].
  destruct (p_status p) as [| |s]; try discriminate.
  - intros E. inversion E. simpl. auto.
  - destruct (is_TaskStatus s); [|discriminate].
    intros E. inversion E. simpl. auto.
Qed.

(** X15: over round trips that go through, and with a key that no row has
    yet, creating a task from a validated body returns a record with the
    key the store assigned and the fields of the body, [status] being
    [pending] when the body leaves it out and [description] and [due_date]
    being [None] when the body leaves them out or sets them to null; a
    [get_task] of that key then returns the same record, and the handlers
    answer 201 and 200 with it. *)
Theorem create_then_get_agrees (p : Payload) (task : TaskCreate) (db : DB) :
  healthy db ->
  ~ stored (next_id db) db ->
  validate_TaskCreate p = Some task ->
  exists (t : Task) (db' : DB),
    create_task task db = (Return (Some t), db')
    /\ fst (get_task (task_id t) db') = Return (Some t)
    /\ task_id t = next_id db
    /\ p_title p = Val (title t)
    /\ description t = optional (p_description p)
    /\ status t = requested_status p
    /\ due_date t = optional (p_due_date p)
    /\ fst (POST_tasks p db) = Return (mkResponse 201 (JTask t))
    /\ fst (read_task (task_id t) db') = Return (mkResponse 200 (JTask t)).
Proof.
  intros H N V.
  destruct (validate_TaskCreate_inv _ _ V) as [Vt Vs].
  destruct (validate_TaskCreate_fields _ _ V) as (F1 & F2 & F3 & F4).
  set (row := created_row task (next_id db) (clock db + 1)).
  set (t := mkTask (next_id db) (c_title task) (c_description task)
                   (c_status task) (c_due_date task)
                   (clock db + 1) (clock db + 1)).
  set (db1 := mkDB (schema db) (rows db ++ [row]) (next_id db + 1)
                   (clock db + 1) (tl (faults db))
                   (log db ++ [Insert (insert_values task)])).
  assert (H1 : healthy db1).
  { unfold db1, healthy. cbn [faults].
    unfold healthy in H. destruct (faults db) as [|b fs]; [constructor|].
    now inversion H. }
  assert (L1 : lookup (next_id db) db1 = Some row).
  { unfold lookup, db1. cbn [rows].
    rewrite find_app_none by (apply lookup_not_stored; exact N).
    unfold row. cbn [find created_row r_task_id]. now rewrite Z.eqb_refl. }
  assert (T1 : Task_of_row row = Some t).
  { unfold Task_of_row, row, created_row. cbn [r_title r_status].
    rewrite Vt, Vs. reflexivity. }
  assert (E : create_task task db
              = (Return (Some t), sent (SelectOne (next_id db)) db1)).
  { unfold create_task, try_except, bind.
    fold (insert_values task).
    rewrite execute_ok by now apply healthy_next_ok.
    cbn [run]. cbn [sent next_id clock rows schema faults log].
    rewrite insert_row_created. cbn [lastrowid].
    fold row. fold db1.
    now rewrite (get_task_found (next_id db) db1 row t
                   (healthy_next_ok _ H1) L1 T1). }
  assert (G : get_task (next_id db) (sent (SelectOne (next_id db)) db1)
              = (Return (Some t),
                 sent (SelectOne (next_id db))
                   (sent (SelectOne (next_id db)) db1))).
  { apply (get_task_found _ _ row t).
    - apply healthy_next_ok. now apply healthy_sent.
    - exact L1.
    - exact T1. }
  exists t, (sent (SelectOne (next_id db)) db1).
  split; [exact E|].
  cbn [task_id title description status due_date t].
  split; [now rewrite G|].
  repeat (split; [assumption || reflexivity|]).
  split.
  - unfold POST_tasks. rewrite V. unfold create_new_task, bind. now rewrite E.
  - unfold read_task, bind. now rewrite G.
Qed.

Lemma create_then_get_agrees_witness :
  exists t db',
    create_task (mkTaskCreate "x" None "pending" None) (sample_db strict [])
    = (Return (Some t), db')
    /\ fst (get_task (task_id t) db') = Return (Some t)
    /\ status t = "pending".
Proof.
  destruct (create_then_get_agrees (mkPayload (Val "x") Unset Unset Unset)
              (mkTaskCreate "x" None "pending" None) (sample_db strict []))
    as (t & db' & E & G & _ & _ & _ & S & _).
  - constructor.
  - intros [r [Hin Heq]]. vm_compute in Hin.
    repeat (destruct Hin as [<-|Hin]; [discriminate Heq|]). exact Hin.
  - reflexivity.
  - exists t, db'. auto.
Defined.

(* ===================================================================== *)
(** ** What validation lets through *)
(* ===================================================================== *)




(* ===================================================================== *)
(** ** Null for a column the record needs *)
(* ===================================================================== *)

(** X17: an update that sets to null a column declared NOT NULL, sent for a
    stored task over round trips that go through, is refused by the store:
    [update_task] returns [None] after the existence check and the UPDATE,
    the table is as it was, and the handler, which finds the task again,
    answers 500. *)
Theorem refused_null_answers_500
    (id : Z) (db : DB) (r : Row) (t : Task) (u : TaskUpdate) :
  healthy db ->
  lookup id db = Some r ->
  Task_of_row r = Some t ->
  store_rejects (schema db) u = true ->
  fst (update_task id u db) = Return None
  /\ rows (snd (update_task id u db)) = rows db
  /\ log (snd (update_task id u db))
     = log db ++ [SelectOne id; Update (model_dump_exclude_unset u) id]
  /\ fst (update_existing_task id u db) = Return could_not_update
  /\ rows (snd (update_existing_task id u db)) = rows db.
Proof.
  intros H L T R.
  pose proof (update_task_rejected id u db r t H L T R) as E.
  split; [now rewrite E|].
  split; [now rewrite E|].
  split; [rewrite E; cbn [snd sent log]; now rewrite <- app_assoc|].
  assert (G : get_task id
                (sent (Update (model_dump_exclude_unset u) id)
                   (sent (SelectOne id) db))
              = (Return (Some t),
                 sent (SelectOne id)
                   (sent (Update (model_dump_exclude_unset u) id)
                      (sent (SelectOne id) db)))).
  { apply (get_task_found _ _ r t).
    - apply healthy_next_ok. now do 2 apply healthy_sent.
    - exact L.
    - exact T. }
  unfold update_existing_task, bind. rewrite E, G. split; reflexivity.
Qed.

Lemma refused_null_answers_500_witness :
  fst (update_existing_task 2 null_title (sample_db strict []))
  = Return could_not_update
  /\ rows (snd (update_existing_task 2 null_title (sample_db strict [])))
     = sample_rows.
Proof.
  destruct (refused_null_answers_500 2 (sample_db strict []) row_2 task_2
              null_title) as (_ & _ & _ & A & B).
  - constructor.
  - reflexivity.
  - reflexivity.
  - reflexivity.
  - exact (conj A B).
Defined.

(** X18: an update that sets [title] to null, sent for a stored task over
    round trips that go through to a store that accepts it, stores the
    null: [update_task] returns [None] although the row was written, the
    handler answers 404, and from then on [get_task] returns [None] for a
    row that [delete_task] still finds and removes. *)
Theorem accepted_null_title_hides_the_task
    (id : Z) (db : DB) (r : Row) (t : Task) (u : TaskUpdate) :
  healthy db ->
  lookup id db = Some r ->
  Task_of_row r = Some t ->
  u_title u = Null ->
  store_rejects (schema db) u = false ->
  exists (r' : Row) (db' : DB),
    update_task id u db = (Return None, db')
    /\ lookup id db' = Some r'
    /\ r_title r' = None
    /\ fst (update_existing_task id u db) = Return not_found
    /\ fst (get_task id db') = Return None
    /\ fst (delete_task id db') = Return true.
Proof.
  intros H L T Nt A.
  assert (Hne : model_dump_exclude_unset u <> []).
  { intros K. apply dump_nil_iff in K. subst u. discriminate Nt. }
  pose proof (update_task_accepted id u db r t H L T Hne A) as E.
  cbv zeta in E.
  set (r' := touch (clock db + 2) (apply_update u r)) in *.
  assert (Tn : Task_of_row r' = None).
  { unfold Task_of_row, r', touch, apply_update. cbn [r_title]. now rewrite Nt. }
  rewrite Tn in E.
  set (db' := sent (SelectOne id) _) in E.
  assert (H' : healthy db').
  { unfold db'. apply healthy_sent, healthy_set_rows.
    now do 2 apply healthy_sent. }
  assert (L' : lookup id db' = Some r').
  { unfold lookup, db'. cbn [rows sent set_rows]. rewrite find_updated_rows.
    unfold lookup in L. rewrite L.
    apply lookup_stored in L. destruct L as [_ ->].
    now rewrite Z.eqb_refl. }
  assert (G : get_task id db' = (Return None, sent (SelectOne id) db')).
  { rewrite get_task_eq.
    pose proof (healthy_next_ok _ H') as Ok. unfold next_ok in Ok.
    now rewrite Ok, L', Tn. }
  exists r', db'.
  split; [exact E|]. split; [exact L'|].
  split; [unfold r', touch, apply_update; cbn [r_title]; now rewrite Nt|].
  split; [unfold update_existing_task, bind; now rewrite E, G|].
  split; [now rewrite G|].
  rewrite delete_task_eq.
  pose proof (healthy_next_ok _ H') as Ok. unfold next_ok in Ok. rewrite Ok.
  cbv zeta. cbn [fst]. f_equal. apply Z.gtb_lt.
  apply lookup_stored in L'. destruct L' as [Hin Hid].
  set (other := fun x : Row => negb (r_task_id x =? id)).
  assert (Lt : (List.length (filter other (rows db'))
                < List.length (rows db'))%nat).
  { clear - Hin Hid. induction (rows db') as [|a l IH]; [destruct Hin|].
    simpl. destruct Hin as [->|Hin].
    - unfold other at 1. rewrite Hid, Z.eqb_refl. simpl.
      pose proof (filter_length_le other l). lia.
    - specialize (IH Hin). destruct (other a); simpl; lia. }
  lia.
Qed.

Lemma accepted_null_title_hides_the_task_witness :
  exists r' db',
    update_task 2 null_title (sample_db lax []) = (Return None, db')
    /\ lookup 2 db' = Some r'
    /\ r_title r' = None
    /\ fst (get_task 2 db') = Return None.
Proof.
  destruct (accepted_null_title_hides_the_task 2 (sample_db lax []) row_2
              task_2 null_title) as (r' & db' & E & L & N & _ & G & _).
  - constructor.
  - reflexivity.
  - reflexivity.
  - reflexivity.
  - reflexivity.
  - exists r', db'. auto.
Defined.

(* ===================================================================== *)
(** ** What create writes *)
(* ===================================================================== *)

(** X19: [create_task] never raises, changes no stored row and adds at most
    one, the row of the body with the key and the time the store assigned;
    when the round trip of the INSERT fails it adds none and returns
    [None], and whenever it returns a record the row was added. *)
Theorem create_task_adds_at_most_one_row (task : TaskCreate) (db : DB) :
  exists (o : option Task) (db' : DB),
    create_task task db = (Return o, db')
    /\ (rows db' = rows db
        \/ rows db' = rows db ++ [created_row task (next_id db) (clock db + 1)])
    /\ (next_fails db -> o = None /\ rows db' = rows db)
    /\ (o <> None ->
        rows db' = rows db ++ [created_row task (next_id db) (clock db + 1)]).
Proof.
  destruct (create_task_returns task db) as (o & db' & E).
  exists o, db'. split; [exact E|].
  destruct (create_task_rows task db) as (_ & R). rewrite E in R.
  cbn [snd] in R. split; [exact R|].
  split.
  - intros F. unfold create_task, try_except, bind in E.
    rewrite (execute_fails _ _ F) in E. inversion E. auto.
  - intros Some_o.
    destruct (next_ok_or_fails db) as [Ok|F].
    + unfold create_task, try_except, bind in E.
      fold (insert_values task) in E.
      rewrite (execute_ok _ _ Ok) in E. cbn [run] in E.
      cbn [sent next_id clock rows schema faults log] in E.
      rewrite insert_row_created in E. cbn [lastrowid] in E.
      rewrite get_task_eq in E. inversion E. reflexivity.
    + exfalso. apply Some_o.
      unfold create_task, try_except, bind in E.
      rewrite (execute_fails _ _ F) in E. now inversion E.
Qed.
